(** * DicomViewer: metadata extraction and reconciliation

    A shallow embedding of the metadata path of the Angular front end:
    [dicom-viewer.component.ts] (tag lookup, date formatting, the merge of
    file values into the record fetched from the API, and the event handlers
    that sequence the two asynchronous sources) and the numeric normalisation
    of [image.service.ts].

    Conventions of the embedding.
    - A JavaScript string is a [string]; every character stands for one code
      unit, and case mapping is the ASCII one (all tag keys of the source are
      ASCII literals).
    - A JavaScript number is [NaN], an infinity, or a finite value kept as an
      exact rational; rounding to binary64 is not represented, and the two
      zeros are one value (they are [===] in the source as well).
    - A metadata object is a finite map from property name to value; reading
      a missing property gives [undefined]. *)

From Stdlib Require Import ZArith QArith Ascii String List.
From stdpp Require Import gmap strings list fin_maps.

Local Open Scope string_scope.

(** ** JavaScript values *)

Inductive jsnum : Type :=
| NaN
| Inf (negative : bool)
| Num (q : Q).

Inductive jsval : Type :=
| JUndefined
| JNull
| JBool (b : bool)
| JNum (n : jsnum)
| JStr (s : string).

Definition jzero : jsval := JNum (Num 0).

(** [n === 0] on numbers. *)
Definition isZero (n : jsnum) : bool :=
  match n with
  | Num q => Qeq_bool q 0
  | _ => false
  end.

(** [obj[key]]: a missing property reads as [undefined]. *)
Definition getProp (obj : gmap string jsval) (key : string) : jsval :=
  default JUndefined (obj !! key).

(** ** The metadata record *)

(** The object literal assigned to [this.dicomMetadata] at the start of
    [fetchMetadataFromApi]: every field at its empty value. *)
Definition emptyMetadata : gmap string jsval :=
  <["patientName" := JStr ""]> (
  <["patientId" := JStr ""]> (
  <["patientBirthDate" := JStr ""]> (
  <["patientSex" := JStr ""]> (
  <["modality" := JStr ""]> (
  <["rows" := jzero]> (
  <["columns" := jzero]> (
  <["imageType" := JStr ""]> (
  <["studyId" := JStr ""]> (
  <["studyInstanceUid" := JStr ""]> (
  <["studyDate" := JStr ""]> (
  <["studyTime" := JStr ""]> (
  <["seriesInstanceUid" := JStr ""]> (
  <["seriesNumber" := JStr ""]> (
  <["seriesDescription" := JStr ""]> (
  <["bodyPart" := JStr ""]> (
  <["imageId" := JStr ""]> (
  <["instanceNumber" := JStr ""]> (
  <["windowCenter" := jzero]> (
  <["windowWidth" := jzero]> ∅))))))))))))))))))).

(** ** Reconciliation (the merge loop of [extractDicomMetadata]) *)

(** The guard of the loop body:
    [newValue !== null && newValue !== undefined && newValue !== '' &&
     newValue !== 0 && newValue !== 'Not available']. *)
Definition nonEmptyFileValue (newValue : jsval) : bool :=
  match newValue with
  | JNull => false
  | JUndefined => false
  | JStr s => negb (String.eqb s "") && negb (String.eqb s "Not available")
  | JNum n => negb (isZero n)
  | JBool _ => true
  end.

(** [Object.keys(extractedMetadata).forEach(key => ...)] starting from the
    copy [{ ...this.dicomMetadata }].  The [changes] table of the source is
    only logged and is left out.  The fold visits every key of
    [extractedMetadata] once; the body touches only its own key, so the
    visiting order does not show in the result. *)
Definition mergeMetadata (dicomMetadata extractedMetadata : gmap string jsval)
  : gmap string jsval :=
  map_fold
    (fun key newValue mergedMetadata =>
       if nonEmptyFileValue newValue
       then <[key := newValue]> mergedMetadata
       else mergedMetadata)
    dicomMetadata extractedMetadata.

(** *** The merge rule as the specification words it *)

(** The empty sentinel of a field: [''] for strings, [0] for numbers. *)
Definition isSentinel (v : jsval) : bool :=
  match v with
  | JStr s => String.eqb s ""
  | JNum n => isZero n
  | _ => false
  end.

(** Fill-only: keep the baseline unless it is at its sentinel. *)
Definition fillOnly (baseline candidate : gmap string jsval) (f : string) : jsval :=
  if isSentinel (getProp baseline f) then getProp candidate f else getProp baseline f.

(** The values the merge loop refuses to take from the file. *)
Inductive rejectedFileValue : jsval -> Prop :=
| rej_null : rejectedFileValue JNull
| rej_undefined : rejectedFileValue JUndefined
| rej_empty : rejectedFileValue (JStr "")
| rej_zero q : (q == 0)%Q -> rejectedFileValue (JNum (Num q))
| rej_not_available : rejectedFileValue (JStr "Not available").

(** Records of the end-to-end scenario of the specification. *)
Definition scenarioBaseline : gmap string jsval :=
  <["studyInstanceUid" := JStr "1.2.3"]> emptyMetadata.

Definition scenarioCandidate : gmap string jsval :=
  <["patientName" := JStr "Jane Doe"]> (
  <["studyInstanceUid" := JStr "9.9.9"]> (
  <["modality" := JStr "CT"]> emptyMetadata)).

(** ** String helpers of the JavaScript runtime *)

Definition codeOf (c : ascii) : N := N_of_ascii c.

(** [a || b] on strings: the empty string is the only falsy string. *)
Definition strOr (a b : string) : string :=
  if String.eqb a "" then b else a.

(** [s.substring(start, end)]: both indices are clamped to the length and
    swapped when out of order. *)
Definition jsSubstring (s : string) (start end_ : nat) : string :=
  let len := String.length s in
  let a := Nat.min start len in
  let b := Nat.min end_ len in
  String.substring (Nat.min a b) (Nat.max a b - Nat.min a b) s.

Definition lowerChar (c : ascii) : ascii :=
  let n := codeOf c in
  if ((65 <=? n) && (n <=? 90))%N then ascii_of_N (n + 32) else c.

Definition upperChar (c : ascii) : ascii :=
  let n := codeOf c in
  if ((97 <=? n) && (n <=? 122))%N then ascii_of_N (n - 32) else c.

Fixpoint mapChars (f : ascii -> ascii) (s : string) : string :=
  match s with
  | EmptyString => EmptyString
  | String c r => String (f c) (mapChars f r)
  end.

Definition toLowerCase : string -> string := mapChars lowerChar.
Definition toUpperCase : string -> string := mapChars upperChar.

(** [key.replace(/[\(\)]/g, '')]: every parenthesis is dropped. *)
Fixpoint removeParens (s : string) : string :=
  match s with
  | EmptyString => EmptyString
  | String c r =>
      if (Ascii.eqb c "(" || Ascii.eqb c ")")%bool
      then removeParens r
      else String c (removeParens r)
  end.

(** [tagName.startsWith('x')]. *)
Definition startsWithX (s : string) : bool :=
  match s with
  | String c _ => Ascii.eqb c "x"
  | EmptyString => false
  end.

(** ** Field normalisation *)

(** [formatDate] of the viewer component; the upload service carries the
    same function as a local closure. *)
Definition formatDate (dateString : string) : string :=
  if (String.eqb dateString "" || negb (Nat.eqb (String.length dateString) 8))%bool
  then dateString
  else
    let year := jsSubstring dateString 0 4 in
    let month := jsSubstring dateString 4 6 in
    let day := jsSubstring dateString 6 8 in
    year +:+ "-" +:+ month +:+ "-" +:+ day.

(** White space skipped by [parseInt] and [parseFloat] (the ASCII part of
    StrWhiteSpaceChar: TAB, LF, VT, FF, CR, SP). *)
Definition isWhiteSpace (c : ascii) : bool :=
  let n := codeOf c in
  ((n =? 9) || (n =? 10) || (n =? 11) || (n =? 12) || (n =? 13) || (n =? 32))%N.

Fixpoint skipWhiteSpace (s : string) : string :=
  match s with
  | String c r => if isWhiteSpace c then skipWhiteSpace r else s
  | EmptyString => EmptyString
  end.

(** The value of a character as a digit: 0-9, then a-z / A-Z as 10-35. *)
Definition digitValue (c : ascii) : option Z :=
  let n := codeOf c in
  if ((48 <=? n) && (n <=? 57))%N then Some (Z.of_N (n - 48))
  else if ((97 <=? n) && (n <=? 122))%N then Some (Z.of_N (n - 87))
  else if ((65 <=? n) && (n <=? 90))%N then Some (Z.of_N (n - 55))
  else None.

(** The longest prefix of digits below [radix], and what follows it. *)
Fixpoint spanDigits (radix : Z) (s : string) : list Z * string :=
  match s with
  | String c r =>
      match digitValue c with
      | Some d =>
          if (d <? radix)%Z
          then let '(ds, rest) := spanDigits radix r in (d :: ds, rest)
          else ([], s)
      | None => ([], s)
      end
  | EmptyString => ([], EmptyString)
  end.

Definition digitsValue (radix : Z) (ds : list Z) : Z :=
  fold_left (fun acc d => (acc * radix + d)%Z) ds 0%Z.

(** A leading sign: [(negative, rest)]. *)
Definition splitSign (s : string) : bool * string :=
  match s with
  | String c r =>
      if Ascii.eqb c "-" then (true, r)
      else if Ascii.eqb c "+" then (false, r)
      else (false, s)
  | EmptyString => (false, EmptyString)
  end.

(** A leading [0x] / [0X] selects radix 16 when no radix is passed. *)
Definition splitHexPrefix (s : string) : Z * string :=
  match s with
  | String c0 (String c1 r) =>
      if (Ascii.eqb c0 "0" && (Ascii.eqb c1 "x" || Ascii.eqb c1 "X"))%bool
      then (16%Z, r)
      else (10%Z, s)
  | _ => (10%Z, s)
  end.

(** [parseInt(string)] with no radix argument. *)
Definition parseInt (input : string) : jsnum :=
  let '(negative, s) := splitSign (skipWhiteSpace input) in
  let '(radix, s) := splitHexPrefix s in
  match fst (spanDigits radix s) with
  | [] => NaN
  | ds =>
      let n := digitsValue radix ds in
      Num (inject_Z (if negative then - n else n))
  end.

(** The exponent part of a decimal literal: [e]/[E], an optional sign and at
    least one digit; absent or incomplete, it contributes nothing. *)
Definition exponentPart (s : string) : Z :=
  match s with
  | String c r =>
      if (Ascii.eqb c "e" || Ascii.eqb c "E")%bool
      then
        let '(negative, r) := splitSign r in
        match fst (spanDigits 10 r) with
        | [] => 0%Z
        | ds => let e := digitsValue 10 ds in if negative then (- e)%Z else e
        end
      else 0%Z
  | EmptyString => 0%Z
  end.

(** [mantissa * 10 ^ exponent] as a rational. *)
Definition scaleDecimal (mantissa exponent : Z) : Q :=
  if (0 <=? exponent)%Z
  then inject_Z (mantissa * 10 ^ exponent)
  else Qred (mantissa # Z.to_pos (10 ^ (- exponent))).

Definition hasPrefix (p s : string) : bool := String.prefix p s.

(** [parseFloat(string)]: the longest prefix that is a decimal literal. *)
Definition parseFloat (input : string) : jsnum :=
  let '(negative, s) := splitSign (skipWhiteSpace input) in
  if hasPrefix "Infinity" s then Inf negative
  else
    let '(intDigits, afterInt) := spanDigits 10 s in
    let '(fracDigits, rest) :=
      match afterInt with
      | String c r => if Ascii.eqb c "." then spanDigits 10 r else ([], afterInt)
      | EmptyString => ([], afterInt)
      end in
    match (intDigits ++ fracDigits)%list with
    | [] => NaN
    | ds =>
        let m := digitsValue 10 ds in
        let e := (exponentPart rest - Z.of_nat (length fracDigits))%Z in
        Num (scaleDecimal (if negative then - m else m) e)
    end.

(** Integer fields, as both extraction paths build them:
    [parseInt(raw || '0')]. *)
Definition normalizeInt (raw : string) : jsnum := parseInt (strOr raw "0").

(** Float fields of the upload path: [parseFloat(raw || '0')]. *)
Definition normalizeFloat (raw : string) : jsnum := parseFloat (strOr raw "0").

(** ** Tag lookup *)

(** What evaluating an expression can do: return a value or throw. *)
Inductive outcome (A : Type) : Type :=
| Returns (a : A)
| Throws.
Arguments Returns {A} a.
Arguments Throws {A}.

Definition andThen {A B : Type} (o : outcome A) (k : A -> outcome B) : outcome B :=
  match o with
  | Returns a => k a
  | Throws => Throws
  end.

Notation "'let!' x ':=' e 'in' k" := (andThen e (fun x => k))
  (at level 10, x name, e at level 200, k at level 200).

(** [try { body } catch (error) { return handler }]. *)
Definition tryCatch {A : Type} (body : outcome A) (handler : A) : outcome A :=
  match body with
  | Returns a => Returns a
  | Throws => Returns handler
  end.

(** An item of an array value.  [join] turns null and undefined into the
    empty string and applies ToString to anything else; an item that is not
    a string is represented by what ToString does on it. *)
Inductive arrayItem : Type :=
| ItemNullish
| ItemString (s : string)
| ItemOther (toString : outcome string).

(** The [value] property of an element: absent, null, an array, a string, or
    some other value, represented by what [value.toString()] does. *)
Inductive rawValue : Type :=
| RawUndefined
| RawNull
| RawArray (items : list arrayItem)
| RawString (s : string)
| RawOther (toString : outcome string).

(** What [dataset[key]] holds: something falsy, or an element whose [value]
    property can be read (the read itself may throw, as a getter can). *)
Inductive slot : Type :=
| Missing
| Element (value : outcome rawValue).

(** An element dictionary as the resolver sees it: a property read per key,
    which may throw.  A falsy dataset (null, undefined) is [None]. *)
Definition elementDictionary : Type := string -> outcome slot.

Definition backslash : string := String (ascii_of_N 92) EmptyString.

Definition itemToString (item : arrayItem) : outcome string :=
  match item with
  | ItemNullish => Returns ""
  | ItemString s => Returns s
  | ItemOther toString => toString
  end.

(** [items.join(separator)]. *)
Fixpoint joinItems (items : list arrayItem) (separator : string) : outcome string :=
  match items with
  | [] => Returns ""
  | [item] => itemToString item
  | item :: rest =>
      let! s := itemToString item in
      let! r := joinItems rest separator in
      Returns (s +:+ separator +:+ r)
  end.

(** The body of the [try] block of [getTagValue]. *)
Definition getTagValueBody (dataset : option elementDictionary) (tagName : string)
  : outcome string :=
  match dataset with
  | None => Returns ""
  | Some dataset =>
      let! value :=
        (let! direct := dataset tagName in
         match direct with
         | Element value => value
         | Missing =>
             if negb (startsWithX tagName)
             then
               let! prefixed := dataset ("x" +:+ tagName) in
               match prefixed with
               | Element value => value
               | Missing => Returns RawNull
               end
             else Returns RawNull
         end) in
      match value with
      | RawUndefined | RawNull => Returns ""
      | RawArray items => joinItems items backslash
      | RawString s => Returns s
      | RawOther toString => toString
      end
  end.

(** [getTagValue]: the body under its [catch], which returns ['']. *)
Definition getTagValue (dataset : option elementDictionary) (tagName : string)
  : outcome string :=
  tryCatch (getTagValueBody dataset tagName) "".

(** The key spellings [getTag] tries, in order. *)
Definition formats (key : string) : list string :=
  [ key; "x" +:+ key; toLowerCase key; toUpperCase key; removeParens key ].

(** The [for (const format of formats)] loop of [getTag]: the first truthy
    value wins, [''] when none is found. *)
Fixpoint getTagLoop (dataset : option elementDictionary) (fs : list string)
  : outcome string :=
  match fs with
  | [] => Returns ""
  | format :: rest =>
      let! value := getTagValue dataset format in
      if String.eqb value "" then getTagLoop dataset rest else Returns value
  end.

(** The closure [getTag] of [extractDicomMetadata]. *)
Definition getTag (dataset : option elementDictionary) (key : string) : outcome string :=
  getTagLoop dataset (formats key).

(** [getTag(tag) || getTag(keyword)]: the keyword is looked up only when the
    numeric tag gave nothing. *)
Definition getTagOr (dataset : option elementDictionary) (tag keyword : string)
  : outcome string :=
  let! v := getTag dataset tag in
  if String.eqb v "" then getTag dataset keyword else Returns v.

(** Sample dictionaries. *)
Definition imageTypeDictionary : elementDictionary :=
  fun key =>
    if String.eqb key "x00080008"
    then Returns (Element (Returns (RawArray [ItemString "CT"; ItemString "AXIAL"])))
    else Returns Missing.

(** A malformed dictionary: reading the bare tag throws, the prefixed
    spelling holds the value. *)
Definition brokenDictionary : elementDictionary :=
  fun key =>
    if String.eqb key "00100010" then Throws
    else if String.eqb key "x00100010"
         then Returns (Element (Returns (RawString "DOE^JANE")))
         else Returns Missing.

(** ** Building the candidate record from the file *)

(** The part of a loaded cornerstone image the component reads.  Reading
    [image.data.elements] throws when the image carries no parsed data. *)
Record cornerstoneImage : Type := {
  imageId : string;
  windowCenter : jsnum;
  windowWidth : jsnum;
  elements : outcome (option elementDictionary)
}.

(** [n || 0] on numbers: 0 and NaN are the falsy numbers. *)
Definition numOrZero (n : jsnum) : jsnum :=
  match n with
  | NaN => Num 0
  | Num q => if Qeq_bool q 0 then Num 0 else n
  | Inf _ => n
  end.

(** The object literal [extractedMetadata]; properties are evaluated in the
    order of the source. *)
Definition extractedMetadataOf (image : cornerstoneImage)
    (dataset : option elementDictionary) : outcome (gmap string jsval) :=
  let! patientName := getTagOr dataset "00100010" "PatientName" in
  let! patientId := getTagOr dataset "00100020" "PatientID" in
  let! patientBirthDate := getTagOr dataset "00100030" "PatientBirthDate" in
  let! patientSex := getTagOr dataset "00100040" "PatientSex" in
  let! modality := getTagOr dataset "00080060" "Modality" in
  let! rows := getTagOr dataset "00280010" "Rows" in
  let! columns := getTagOr dataset "00280011" "Columns" in
  let! imageType := getTagOr dataset "00080008" "ImageType" in
  let! studyId := getTagOr dataset "00200010" "StudyID" in
  let! studyInstanceUid := getTagOr dataset "0020000D" "StudyInstanceUID" in
  let! studyDate := getTagOr dataset "00080020" "StudyDate" in
  let! studyTime := getTagOr dataset "00080030" "StudyTime" in
  let! seriesInstanceUid := getTagOr dataset "0020000E" "SeriesInstanceUID" in
  let! seriesNumber := getTagOr dataset "00200011" "SeriesNumber" in
  let! seriesDescription := getTagOr dataset "0008103E" "SeriesDescription" in
  let! bodyPart := getTagOr dataset "00180015" "BodyPartExamined" in
  let! instanceNumber := getTagOr dataset "00200013" "InstanceNumber" in
  Returns (
    <["patientName" := JStr patientName]> (
    <["patientId" := JStr patientId]> (
    <["patientBirthDate" := JStr (formatDate patientBirthDate)]> (
    <["patientSex" := JStr patientSex]> (
    <["modality" := JStr modality]> (
    <["rows" := JNum (normalizeInt rows)]> (
    <["columns" := JNum (normalizeInt columns)]> (
    <["imageType" := JStr imageType]> (
    <["studyId" := JStr studyId]> (
    <["studyInstanceUid" := JStr studyInstanceUid]> (
    <["studyDate" := JStr (formatDate studyDate)]> (
    <["studyTime" := JStr studyTime]> (
    <["seriesInstanceUid" := JStr seriesInstanceUid]> (
    <["seriesNumber" := JStr seriesNumber]> (
    <["seriesDescription" := JStr seriesDescription]> (
    <["bodyPart" := JStr bodyPart]> (
    <["imageId" := JStr (imageId image)]> (
    <["instanceNumber" := JStr instanceNumber]> (
    <["windowCenter" := JNum (numOrZero (windowCenter image))]> (
    <["windowWidth" := JNum (numOrZero (windowWidth image))]> ∅)))))))))))))))))))).

(** ** The response handler of [fetchMetadataFromApi] *)

(** [v !== undefined && v !== null && v !== '']. *)
Definition isPresent (v : jsval) : bool :=
  match v with
  | JUndefined | JNull => false
  | JStr s => negb (String.eqb s "")
  | _ => true
  end.

(** [normalizedResponse]: the response with its keys lower-cased, built in
    the key order of the response (a later key overwrites an earlier one
    with the same lower-case spelling). *)
Definition normalizeKeys (response : list (string * jsval)) : gmap string jsval :=
  foldl (fun acc kv => <[toLowerCase kv.1 := kv.2]> acc) ∅ response.

Definition fieldsToCheck : list (string * list string) :=
  [ ("patientName", ["patientname"; "patient_name"; "name"]);
    ("patientId", ["patientid"; "patient_id"; "id"]);
    ("patientBirthDate", ["patientbirthdate"; "patient_birth_date"; "birthdate"; "birth_date"]);
    ("patientSex", ["patientsex"; "patient_sex"; "sex"; "gender"]);
    ("modality", ["modality"]);
    ("rows", ["rows"]);
    ("columns", ["columns"; "cols"]);
    ("imageType", ["imagetype"; "image_type"; "type"]);
    ("studyId", ["studyid"; "study_id"]);
    ("studyInstanceUid", ["studyinstanceuid"; "study_instance_uid"]);
    ("studyDate", ["studydate"; "study_date"]);
    ("studyTime", ["studytime"; "study_time"]);
    ("seriesInstanceUid", ["seriesinstanceuid"; "series_instance_uid"]);
    ("seriesNumber", ["seriesnumber"; "series_number"]);
    ("seriesDescription", ["seriesdescription"; "series_description"]);
    ("bodyPart", ["bodypart"; "body_part"]);
    ("instanceNumber", ["instancenumber"; "instance_number"]);
    ("windowCenter", ["windowcenter"; "window_center"]);
    ("windowWidth", ["windowwidth"; "window_width"]) ].

(** The inner [for (const apiKey of field.apiKeys)] loop: the first key with
    a present value, if any. *)
Fixpoint firstPresent (normalizedResponse : gmap string jsval) (apiKeys : list string)
  : option jsval :=
  match apiKeys with
  | [] => None
  | apiKey :: rest =>
      let v := getProp normalizedResponse apiKey in
      if isPresent v then Some v else firstPresent normalizedResponse rest
  end.

Definition applyField (normalizedResponse : gmap string jsval)
    (metadata : gmap string jsval) (field : string * list string) : gmap string jsval :=
  match firstPresent normalizedResponse field.2 with
  | Some v => <[field.1 := v]> metadata
  | None => metadata
  end.

(** The [fieldsToCheck.forEach] of the handler on the current record. *)
Definition applyApiResponse (response : list (string * jsval))
    (metadata : gmap string jsval) : gmap string jsval :=
  foldl (applyField (normalizeKeys response)) metadata fieldsToCheck.

(** The [next] callback.  It writes into whatever [this.dicomMetadata]
    refers to when it runs.  When that is null the first assignment throws
    inside the callback and nothing is written. *)
Definition onFetchResponse (current : option (gmap string jsval))
    (response : option (list (string * jsval))) : option (gmap string jsval) :=
  match response with
  | None => current
  | Some [] => current
  | Some kvs =>
      match current with
      | Some metadata => Some (applyApiResponse kvs metadata)
      | None => None
      end
  end.

(** ** The viewer component and its asynchronous callbacks *)

(** The fields of [DicomViewerComponent] that steer the metadata flow,
    together with the asynchronous work the component has started and whose
    callback has not run yet.  Images are named by their numeric id.  The
    display flags ([isLoading], [isImageLoaded], [loadError],
    [showMetadata]) and the viewport never reach the metadata and are left
    out. *)
Record component : Type := {
  selectedImage : option Z;
  element : bool;
  cornerstoneInitialized : bool;
  dicomMetadata : option (gmap string jsval);
  pendingFetches : list Z;     (* getImageMetadata(id) subscribed, no answer yet *)
  pendingTimers : nat;         (* setTimeout callbacks of ngOnChanges not yet run *)
  pendingLoads : list Z;       (* loadAndCacheImage promises not yet settled *)
  savedPayloads : list (Z * gmap string jsval)  (* updateImageMetadata posts *)
}.

(** The component as constructed. *)
Definition initialComponent : component :=
  {| selectedImage := None; element := false; cornerstoneInitialized := false;
     dicomMetadata := None; pendingFetches := []; pendingTimers := 0;
     pendingLoads := []; savedPayloads := [] |}.

Definition setMetadata (c : component) (m : option (gmap string jsval)) : component :=
  {| selectedImage := selectedImage c; element := element c;
     cornerstoneInitialized := cornerstoneInitialized c;
     dicomMetadata := m; pendingFetches := pendingFetches c;
     pendingTimers := pendingTimers c; pendingLoads := pendingLoads c;
     savedPayloads := savedPayloads c |}.

Definition setSelected (c : component) (selected : option Z) : component :=
  {| selectedImage := selected; element := element c;
     cornerstoneInitialized := cornerstoneInitialized c;
     dicomMetadata := dicomMetadata c; pendingFetches := pendingFetches c;
     pendingTimers := pendingTimers c; pendingLoads := pendingLoads c;
     savedPayloads := savedPayloads c |}.

Definition setPendingFetches (c : component) (l : list Z) : component :=
  {| selectedImage := selectedImage c; element := element c;
     cornerstoneInitialized := cornerstoneInitialized c;
     dicomMetadata := dicomMetadata c; pendingFetches := l;
     pendingTimers := pendingTimers c; pendingLoads := pendingLoads c;
     savedPayloads := savedPayloads c |}.

Definition setPendingTimers (c : component) (n : nat) : component :=
  {| selectedImage := selectedImage c; element := element c;
     cornerstoneInitialized := cornerstoneInitialized c;
     dicomMetadata := dicomMetadata c; pendingFetches := pendingFetches c;
     pendingTimers := n; pendingLoads := pendingLoads c;
     savedPayloads := savedPayloads c |}.

Definition setPendingLoads (c : component) (l : list Z) : component :=
  {| selectedImage := selectedImage c; element := element c;
     cornerstoneInitialized := cornerstoneInitialized c;
     dicomMetadata := dicomMetadata c; pendingFetches := pendingFetches c;
     pendingTimers := pendingTimers c; pendingLoads := l;
     savedPayloads := savedPayloads c |}.

Definition viewReady (c : component) : component :=
  {| selectedImage := selectedImage c; element := true;
     cornerstoneInitialized := true;
     dicomMetadata := dicomMetadata c; pendingFetches := pendingFetches c;
     pendingTimers := pendingTimers c; pendingLoads := pendingLoads c;
     savedPayloads := savedPayloads c |}.

(** [saveMetadataToServer]: posts the current record under the id of the
    image selected at that moment. *)
Definition saveMetadataToServer (c : component) : component :=
  match dicomMetadata c, selectedImage c with
  | Some metadata, Some id =>
      {| selectedImage := selectedImage c; element := element c;
         cornerstoneInitialized := cornerstoneInitialized c;
         dicomMetadata := dicomMetadata c; pendingFetches := pendingFetches c;
         pendingTimers := pendingTimers c; pendingLoads := pendingLoads c;
         savedPayloads := savedPayloads c ++ [(id, metadata)] |}
  | _, _ => c
  end.

(** [extractDicomMetadata(image)].  Anything thrown while the candidate is
    built is caught and only logged. *)
Definition extractDicomMetadata (c : component) (image : cornerstoneImage) : component :=
  match (let! dataset := elements image in extractedMetadataOf image dataset) with
  | Throws => c
  | Returns extractedMetadata =>
      match dicomMetadata c with
      | None => saveMetadataToServer (setMetadata c (Some extractedMetadata))
      | Some current =>
          saveMetadataToServer
            (setMetadata c (Some (mergeMetadata current extractedMetadata)))
      end
  end.

(** [fetchMetadataFromApi]: installs the all-empty record and subscribes to
    [getImageMetadata(this.selectedImage.id)]. *)
Definition fetchMetadataFromApi (c : component) : component :=
  match selectedImage c with
  | None => c
  | Some id =>
      setPendingFetches (setMetadata c (Some emptyMetadata)) (pendingFetches c ++ [id])
  end.

(** [loadAndDisplayImage]: starts loading the image selected at that moment;
    extraction runs in the promise's [then]. *)
Definition loadAndDisplayImage (c : component) : component :=
  match selectedImage c with
  | Some id =>
      if (element c && cornerstoneInitialized c)%bool
      then setPendingLoads c (pendingLoads c ++ [id])
      else c
  | None => c
  end.

(** [ngOnChanges] for a change of the [selectedImage] input (Angular has
    assigned the input before the call). *)
Definition ngOnChanges (c : component) (selected : option Z) : component :=
  let c := setMetadata (setSelected c selected) None in
  match selected with
  | Some _ =>
      if element c
      then let c := fetchMetadataFromApi c in
           setPendingTimers c (S (pendingTimers c))
      else c
  | None => c
  end.

(** [ngAfterViewInit], with the container present and cornerstone enabled. *)
Definition ngAfterViewInit (c : component) : component :=
  let c := viewReady c in
  match selectedImage c with
  | Some _ => loadAndDisplayImage c
  | None => c
  end.

Definition retryLoad (c : component) : component :=
  match selectedImage c with
  | Some _ => loadAndDisplayImage c
  | None => c
  end.

(** Remove the first occurrence of an id from a list of pending work. *)
Fixpoint removeFirst (id : Z) (l : list Z) : list Z :=
  match l with
  | [] => []
  | x :: rest => if (x =? id)%Z then rest else x :: removeFirst id rest
  end.

Definition isPending (id : Z) (l : list Z) : bool :=
  existsb (fun x => (x =? id)%Z) l.

(** What can happen to the component: Angular lifecycle calls, a click, and
    the callbacks of the work in flight, in whatever order the browser runs
    them. *)
Inductive event : Type :=
| ViewInit
| InputChanged (selected : option Z)
| RetryClicked
| FetchResponded (id : Z) (response : option (list (string * jsval)))
| TimerFired
| ImageLoaded (id : Z) (image : cornerstoneImage)
| ImageFailed (id : Z).

(** One event; [None] when the event cannot occur in that state (a callback
    for work that is not in flight). *)
Definition step (c : component) (e : event) : option component :=
  match e with
  | ViewInit => Some (ngAfterViewInit c)
  | InputChanged selected => Some (ngOnChanges c selected)
  | RetryClicked => Some (retryLoad c)
  | FetchResponded id response =>
      if isPending id (pendingFetches c)
      then
        let c := setPendingFetches c (removeFirst id (pendingFetches c)) in
        Some (setMetadata c (onFetchResponse (dicomMetadata c) response))
      else None
  | TimerFired =>
      match pendingTimers c with
      | S n => Some (loadAndDisplayImage (setPendingTimers c n))
      | O => None
      end
  | ImageLoaded id image =>
      if isPending id (pendingLoads c)
      then
        let c := setPendingLoads c (removeFirst id (pendingLoads c)) in
        Some (extractDicomMetadata c image)
      else None
  | ImageFailed id =>
      if isPending id (pendingLoads c)
      then Some (setPendingLoads c (removeFirst id (pendingLoads c)))
      else None
  end.

Fixpoint run (c : component) (trace : list event) : option component :=
  match trace with
  | [] => Some c
  | e :: rest =>
      match step c e with
      | Some c' => run c' rest
      | None => None
      end
  end.

(** *** The ordering and the stale-result guard as the specification words them *)

(** When the timer callback starts loading the selected image, no baseline
    fetch for that image is outstanding any more. *)
Definition extractionAfterBaseline : Prop :=
  forall (trace : list event) (c c' : component) (id : Z),
    run initialComponent trace = Some c ->
    step c TimerFired = Some c' ->
    selectedImage c = Some id ->
    pendingLoads c' = (pendingLoads c ++ [id])%list ->
    isPending id (pendingFetches c) = false.


(** Sample file and answers. *)
Definition sampleDictionary : elementDictionary :=
  fun key =>
    if String.eqb key "x00100010"
    then Returns (Element (Returns (RawString "DOE^JANE")))
    else if String.eqb key "x0020000d"
    then Returns (Element (Returns (RawString "9.9.9")))
    else Returns Missing.

Definition sampleImage : cornerstoneImage :=
  {| imageId := "wadouri:http://localhost:5028/api/image/1";
     windowCenter := Num 40; windowWidth := Num 400;
     elements := Returns (Some sampleDictionary) |}.

Definition sampleResponse : list (string * jsval) :=
  [ ("patientName", JStr "SMITH^JOHN"); ("studyInstanceUid", JStr "1.2.3") ].

(** The component after "view ready, image 1 selected, timer fired, image 2
    selected": image 2 is current, image 1's fetch and load are in flight. *)
Definition switchedComponent : component :=
  {| selectedImage := Some 2%Z; element := true; cornerstoneInitialized := true;
     dicomMetadata := Some emptyMetadata;
     pendingFetches := [1%Z; 2%Z]; pendingTimers := 1;
     pendingLoads := [1%Z]; savedPayloads := [] |}.

(** The candidate read from [sampleImage]. *)
Definition sampleExtracted : gmap string jsval :=
  match extractedMetadataOf sampleImage (Some sampleDictionary) with
  | Returns m => m
  | Throws => ∅
  end.

(** A file whose Rows element holds text that is not a number. *)
Definition badRowsDictionary : elementDictionary :=
  fun key =>
    if String.eqb key "x00280010"
    then Returns (Element (Returns (RawString "abc")))
    else Returns Missing.

Definition badRowsImage : cornerstoneImage :=
  {| imageId := "wadouri:http://localhost:5028/api/image/7";
     windowCenter := Num 40; windowWidth := Num 400;
     elements := Returns (Some badRowsDictionary) |}.

Definition badRowsExtracted : gmap string jsval :=
  match extractedMetadataOf badRowsImage (Some badRowsDictionary) with
  | Returns m => m
  | Throws => ∅
  end.

(** ** Auxiliary notions for the further properties *)

(** The dictionary keys [getTag] can read while resolving [key]: the five
    spellings and their [x]-prefixed forms. *)
Definition keysRead (key : string) : list string :=
  (formats key ++ map (String.append "x") (formats key))%list.

(** A dictionary that holds one string element and nothing else. *)
Definition singleElementDictionary (key value : string) : elementDictionary :=
  fun k =>
    if String.eqb k key
    then Returns (Element (Returns (RawString value)))
    else Returns Missing.

(** A response entry with its key lower-cased. *)
Definition lowerKey (kv : string * jsval) : string * jsval :=
  (toLowerCase kv.1, kv.2).

(** A record with exactly the twenty properties of [DicomMetadata]. *)
Definition fullyPopulated (m : gmap string jsval) : Prop :=
  dom m = dom emptyMetadata.

(** Every record the component holds or has posted is fully populated. *)
Definition recordsPopulated (c : component) : Prop :=
  (forall m, dicomMetadata c = Some m -> fullyPopulated m)
  /\ (forall id m, (id, m) ∈ savedPayloads c -> fullyPopulated m).

(** ** The image service ([image.service.ts]) *)

(** Truthiness of a value and [a || b]. *)
Definition truthy (v : jsval) : bool :=
  match v with
  | JUndefined | JNull => false
  | JBool b => b
  | JNum NaN => false
  | JNum (Inf _) => true
  | JNum (Num q) => negb (Qeq_bool q 0)
  | JStr s => negb (String.eqb s "")
  end.

Definition jsOr (a b : jsval) : jsval := if truthy a then a else b.

(** [s.endsWith(suffix)]. *)
Definition endsWith (s suffix : string) : bool :=
  let n := String.length s in
  let m := String.length suffix in
  if (m <=? n)%nat
  then String.eqb (String.substring (n - m) m s) suffix
  else false.

Module ImageService.

(** [DicomImage]; an optional property that is absent reads [undefined]. *)
Record DicomImage : Type := {
  id : Z;
  name : string;
  contentType : string;
  filePath : jsval;
  patientId : jsval;
  patientName : jsval;
  modality : jsval;
  studyInstanceUid : jsval;
  url : jsval;
  uploadDate : jsval
}.

(** [metadata?.key]. *)
Definition optionalProp (metadata : option (gmap string jsval)) (key : string) : jsval :=
  match metadata with
  | Some m => getProp m key
  | None => JUndefined
  end.

(** The [tap] of [uploadImage]: a response with a truthy id appends the new
    image to the list held by the BehaviorSubject.  [responseId] is [None]
    when the response is falsy or has no id. *)
Definition onUploaded (images : list DicomImage) (fileName fileType : string)
    (metadata : option (gmap string jsval)) (responseId : option Z) : list DicomImage :=
  match responseId with
  | Some newId =>
      if (newId =? 0)%Z then images
      else
        (images ++
         [ {| id := newId; name := fileName; contentType := fileType;
              filePath := JUndefined;
              patientId := jsOr (optionalProp metadata "patientId") (JStr "");
              patientName := jsOr (optionalProp metadata "patientName") (JStr "");
              modality := jsOr (optionalProp metadata "modality") (JStr "");
              studyInstanceUid :=
                jsOr (optionalProp metadata "studyInstanceUid") (JStr "");
              url := JUndefined; uploadDate := JUndefined |} ])%list
  | None => images
  end.

(** The [tap] of [deleteImage]:
    [currentImages.filter(img => img.id !== id)]. *)
Definition onDeleted (images : list DicomImage) (deleted : Z) : list DicomImage :=
  List.filter (fun img => negb (id img =? deleted)%Z) images.

(** [currentImages.findIndex(img => img.id === imageId)]. *)
Fixpoint findIndex (imageId : Z) (images : list DicomImage) : option nat :=
  match images with
  | [] => None
  | img :: rest =>
      if (id img =? imageId)%Z then Some 0%nat
      else option_map S (findIndex imageId rest)
  end.

(** [{ ...image, patientId: ..., patientName: ..., modality: ...,
       studyInstanceUid: ... }]. *)
Definition withMetadata (img : DicomImage) (metadata : gmap string jsval) : DicomImage :=
  {| id := id img; name := name img; contentType := contentType img;
     filePath := filePath img;
     patientId := getProp metadata "patientId";
     patientName := getProp metadata "patientName";
     modality := getProp metadata "modality";
     studyInstanceUid := getProp metadata "studyInstanceUid";
     url := url img; uploadDate := uploadDate img |}.

(** The [tap] of [updateImageMetadata]. *)
Definition onMetadataUpdated (images : list DicomImage) (imageId : Z)
    (metadata : gmap string jsval) : list DicomImage :=
  match findIndex imageId images with
  | Some imageIndex =>
      match images !! imageIndex with
      | Some img => <[imageIndex := withMetadata img metadata]> images
      | None => images
      end
  | None => images
  end.

(** What reading and parsing the file gives ([parseMetadataFromFile]): an
    error of the FileReader, or the metadata (null when parsing failed). *)
Inductive readOutcome : Type :=
| ReadError
| Parsed (metadata : option (gmap string jsval)).

Inductive postOutcome : Type :=
| PostOk (responseId : option Z)
| PostFailed.

(** What a subscriber of [uploadImage] receives. *)
Inductive emitted : Type :=
| NextResponse
| NextErrorObject    (* [{ error: true, message }] from [catchError] *)
| ErrorSignal.

(** [uploadImage]: parse first, then post; a failed post is turned into a
    value by [catchError], only a failed read reaches the subscriber as an
    error. *)
Definition uploadImage (images : list DicomImage) (fileName fileType : string)
    (read : readOutcome) (post : postOutcome) : list DicomImage * emitted :=
  match read with
  | ReadError => (images, ErrorSignal)
  | Parsed metadata =>
      match post with
      | PostOk responseId =>
          (onUploaded images fileName fileType metadata responseId, NextResponse)
      | PostFailed => (images, NextErrorObject)
      end
  end.

(** The parsed data set as [getTag] uses it: [dataset.elements[format]]
    (truthy or not) and [dataset.string(format)], either of which may
    throw. *)
Record parsedDataset : Type := {
  elementAt : string -> outcome bool;
  stringAt : string -> outcome (option string)
}.

Definition formats (tag : string) : list string :=
  [ tag; "x" +:+ tag; toLowerCase tag; toUpperCase tag ].

(** The loop inside the [try] of [getTag]. *)
Fixpoint getTagLoop (dataset : parsedDataset) (fs : list string) : outcome string :=
  match fs with
  | [] => Returns ""
  | format :: rest =>
      let! element := elementAt dataset format in
      if (element : bool)
      then
        let! value := stringAt dataset format in
        match value with
        | Some v => if String.eqb v "" then getTagLoop dataset rest else Returns v
        | None => getTagLoop dataset rest
        end
      else getTagLoop dataset rest
  end.

(** [getTag] of [parseMetadataFromFile]: one [try] around the whole loop,
    whose [catch] returns ['']. *)
Definition getTag (dataset : parsedDataset) (tag : string) : string :=
  match getTagLoop dataset (formats tag) with
  | Returns v => v
  | Throws => ""
  end.

(** The [metadata] object of [parseMetadataFromFile]. *)
Definition metadataOf (fileName : string) (dataset : parsedDataset)
  : gmap string jsval :=
  <["patientName" := JStr (strOr (getTag dataset "00100010") "")]> (
  <["patientId" := JStr (strOr (getTag dataset "00100020") "")]> (
  <["patientBirthDate" := JStr (formatDate (strOr (getTag dataset "00100030") ""))]> (
  <["patientSex" := JStr (strOr (getTag dataset "00100040") "")]> (
  <["modality" := JStr (strOr (getTag dataset "00080060") "")]> (
  <["rows" := JNum (normalizeInt (getTag dataset "00280010"))]> (
  <["columns" := JNum (normalizeInt (getTag dataset "00280011"))]> (
  <["imageType" := JStr (strOr (getTag dataset "00080008") "")]> (
  <["studyId" := JStr (strOr (getTag dataset "00200010") "")]> (
  <["studyInstanceUid" := JStr (strOr (getTag dataset "0020000D") "")]> (
  <["studyDate" := JStr (formatDate (strOr (getTag dataset "00080020") ""))]> (
  <["studyTime" := JStr (strOr (getTag dataset "00080030") "")]> (
  <["seriesInstanceUid" := JStr (strOr (getTag dataset "0020000E") "")]> (
  <["seriesNumber" := JStr (strOr (getTag dataset "00200011") "")]> (
  <["seriesDescription" := JStr (strOr (getTag dataset "0008103E") "")]> (
  <["bodyPart" := JStr (strOr (getTag dataset "00180015") "")]> (
  <["imageId" := JStr fileName]> (
  <["instanceNumber" := JStr (strOr (getTag dataset "00200013") "")]> (
  <["windowCenter" := JNum (normalizeFloat (getTag dataset "00281050"))]> (
  <["windowWidth" := JNum (normalizeFloat (getTag dataset "00281051"))]> ∅))))))))))))))))))).

(** A spelling under which the loop finds nothing and moves on. *)
Definition yieldsNothing (dataset : parsedDataset) (format : string) : Prop :=
  elementAt dataset format = Returns false
  \/ (elementAt dataset format = Returns true
      /\ (stringAt dataset format = Returns None
          \/ stringAt dataset format = Returns (Some ""))).

(** A spelling whose lookup throws. *)
Definition lookupThrows (dataset : parsedDataset) (format : string) : Prop :=
  elementAt dataset format = Throws
  \/ (elementAt dataset format = Returns true /\ stringAt dataset format = Throws).

(** A data set in which reading the bare tag throws although the prefixed
    spelling holds a value. *)
Definition brokenDataset : parsedDataset :=
  {| elementAt := fun k => if String.eqb k "00100010" then Throws else Returns true;
     stringAt := fun k => Returns (Some "DOE^JANE") |}.

End ImageService.

(** ** The callers of the service: file selection and upload bookkeeping *)

(** A selected file: its name and MIME type. *)
Record file : Type := { fileName : string; fileType : string }.

(** The filter of [onFileSelected] (gallery) and [handleFolderSelection]
    (upload): [file.name.toLowerCase().endsWith('.dcm') ||
    file.type === 'application/dicom']. *)
Definition isDicomFile (f : file) : bool :=
  (endsWith (toLowerCase (fileName f)) ".dcm"
   || String.eqb (fileType f) "application/dicom")%bool.

Module UploadComponent.

(** [loading] and [error] of the component, the three counters that
    [uploadDicomFiles] keeps in its closure, and the number of times the
    router was told to go to the gallery. *)
Record state : Type := {
  loading : bool;
  error : option string;
  successCount : nat;
  failCount : nat;
  totalFiles : nat;
  navigations : nat
}.

(** [finishUpload(successCount, failCount)]. *)
Definition finishUpload (st : state) : state :=
  let st :=
    if (0 <? successCount st)%nat
    then {| loading := loading st; error := error st;
            successCount := successCount st; failCount := failCount st;
            totalFiles := totalFiles st; navigations := S (navigations st) |}
    else if (0 <? failCount st)%nat
    then {| loading := loading st;
            error := Some "No DICOM images were uploaded successfully";
            successCount := successCount st; failCount := failCount st;
            totalFiles := totalFiles st; navigations := navigations st |}
    else st in
  {| loading := false; error := error st;
     successCount := successCount st; failCount := failCount st;
     totalFiles := totalFiles st; navigations := navigations st |}.

(** The start of [uploadDicomFiles(files)] for [n] files. *)
Definition uploadDicomFiles (st : state) (n : nat) : state :=
  {| loading := true; error := None; successCount := 0; failCount := 0;
     totalFiles := n; navigations := navigations st |}.

(** The [next] callback of one upload. *)
Definition onNext (st : state) : state :=
  let st := {| loading := loading st; error := error st;
               successCount := S (successCount st); failCount := failCount st;
               totalFiles := totalFiles st; navigations := navigations st |} in
  if (successCount st + failCount st =? totalFiles st)%nat
  then finishUpload st else st.

(** The [error] callback of one upload. *)
Definition onError (st : state) : state :=
  let st := {| loading := loading st; error := error st;
               successCount := successCount st; failCount := S (failCount st);
               totalFiles := totalFiles st; navigations := navigations st |} in
  if (successCount st + failCount st =? totalFiles st)%nat
  then finishUpload st else st.

(** One upload reports back. *)
Definition deliver (st : state) (e : ImageService.emitted) : state :=
  match e with
  | ImageService.ErrorSignal => onError st
  | ImageService.NextResponse | ImageService.NextErrorObject => onNext st
  end.

(** [uploadDicomFiles] followed by the reports of all uploads, in the order
    they arrive. *)
Definition uploadAll (st : state) (reports : list ImageService.emitted) : state :=
  foldl deliver (uploadDicomFiles st (length reports)) reports.

Definition isNext (e : ImageService.emitted) : bool :=
  match e with
  | ImageService.ErrorSignal => false
  | _ => true
  end.

End UploadComponent.



(* ================================================================== *)
(** * Properties                                                       *)
(* ================================================================== *)

(** ** Reconciliation *)

Lemma mergeMetadata_lookup (cur ext : gmap string jsval) (k : string) :
  mergeMetadata cur ext !! k =
  match ext !! k with
  | Some v => if nonEmptyFileValue v then Some v else cur !! k
  | None => cur !! k
  end.
Proof.
  unfold mergeMetadata. revert k.
  apply (map_fold_weak_ind (fun (r m : gmap string jsval) =>
    forall k, r !! k = match m !! k with
                       | Some v => if nonEmptyFileValue v then Some v else cur !! k
                       | None => cur !! k
                       end)).
  - intros k. by rewrite lookup_empty.
  - intros i x m r Hi IH k.
    destruct (decide (i = k)) as [->|Hne].
    + rewrite lookup_insert_eq. destruct (nonEmptyFileValue x).
      * by rewrite lookup_insert_eq.
      * by rewrite IH, Hi.
    + rewrite (lookup_insert_ne m) by done.
      destruct (nonEmptyFileValue x).
      * rewrite lookup_insert_ne by done. apply IH.
      * apply IH.
Qed.

Lemma mergeMetadata_getProp (cur ext : gmap string jsval) (f : string) :
  getProp (mergeMetadata cur ext) f =
  if nonEmptyFileValue (getProp ext f) then getProp ext f else getProp cur f.
Proof.
  unfold getProp. rewrite mergeMetadata_lookup.
  destruct (ext !! f) as [v|]; simpl; [|done].
  by destruct (nonEmptyFileValue v).
Qed.

Lemma rejected_not_taken v : rejectedFileValue v -> nonEmptyFileValue v = false.
Proof.
  destruct 1; simpl; try done.
  rewrite negb_false_iff. by apply Qeq_bool_iff.
Qed.

(** C1 (as stated, refuted).  The merge of [extractDicomMetadata] is not the
    fill-only rule: with baseline patientName "John Smith" and candidate
    patientName "Jane Doe" the merged record holds "Jane Doe", where
    fill-only would keep "John Smith". *)
Lemma C1_fill_only_refuted :
  ~ (forall (baseline candidate : gmap string jsval) (f : string),
        getProp (mergeMetadata baseline candidate) f = fillOnly baseline candidate f).
Proof.
  intros H.
  specialize (H (<["patientName" := JStr "John Smith"]> emptyMetadata)
                (<["patientName" := JStr "Jane Doe"]> emptyMetadata)
                "patientName").
  vm_compute in H. discriminate H.
Qed.

(** C1 (amended).  For every field and every baseline/candidate pair the
    merged field is the candidate's value when the guard of the loop accepts
    it (not null, undefined, '', 0 or 'Not available'), and the baseline's
    value otherwise: the file value takes precedence, and the baseline only
    survives where the file has nothing to offer. *)
Theorem C1_file_value_precedence :
  forall (baseline candidate : gmap string jsval) (f : string),
    getProp (mergeMetadata baseline candidate) f =
      (if nonEmptyFileValue (getProp candidate f)
       then getProp candidate f
       else getProp baseline f)
    /\ mergeMetadata baseline candidate !! f =
      (if nonEmptyFileValue (getProp candidate f)
       then candidate !! f
       else baseline !! f).
Proof.
  intros baseline candidate f. split.
  - apply mergeMetadata_getProp.
  - rewrite mergeMetadata_lookup. unfold getProp.
    destruct (candidate !! f) as [v|]; simpl; [|done].
    by destruct (nonEmptyFileValue v).
Qed.

(** C2 (as stated, refuted).  In the end-to-end scenario the persisted study
    UID "1.2.3" does not survive: the merged record carries the UID "9.9.9"
    read from the file. *)
Lemma C2_scenario_uid_overwritten :
  getProp (mergeMetadata scenarioBaseline scenarioCandidate) "studyInstanceUid"
    = JStr "9.9.9"
  /\ getProp (mergeMetadata scenarioBaseline scenarioCandidate) "studyInstanceUid"
    <> JStr "1.2.3".
Proof. split; [by vm_compute | vm_compute; discriminate]. Qed.

Lemma not_taken_rejected v : nonEmptyFileValue v = false -> rejectedFileValue v.
Proof.
  destruct v as [| |b|n|s]; simpl; intros H; try constructor; try discriminate H.
  - destruct n as [| |q]; simpl in H; try discriminate H.
    constructor. apply Qeq_bool_iff. by apply negb_false_iff.
  - apply andb_false_iff in H as [H | H]; apply negb_false_iff, String.eqb_eq in H;
      subst s; constructor.
Qed.

(** C2 (amended).  For a non-empty persisted studyInstanceUid or
    seriesInstanceUid the merge keeps the stored identifier when the value
    extracted from the file is rejected by the guard (null, undefined, '', 0
    or 'Not available') and puts the extracted value in its place otherwise;
    so the stored identifier is unchanged exactly when the extracted value
    is rejected or is the stored identifier itself.  In the scenario the
    merged record is patientName "Jane Doe", studyInstanceUid "9.9.9",
    modality "CT". *)
Theorem C2_uid_kept_only_without_file_value :
  forall (baseline candidate : gmap string jsval) (key uid : string),
    key = "studyInstanceUid" \/ key = "seriesInstanceUid" ->
    baseline !! key = Some (JStr uid) ->
    (rejectedFileValue (getProp candidate key) ->
       getProp (mergeMetadata baseline candidate) key = JStr uid)
    /\ (forall s, candidate !! key = Some (JStr s) ->
          s <> "" -> s <> "Not available" ->
          getProp (mergeMetadata baseline candidate) key = JStr s)
    /\ (~ rejectedFileValue (getProp candidate key) ->
          getProp (mergeMetadata baseline candidate) key = getProp candidate key)
    /\ (getProp (mergeMetadata baseline candidate) key = JStr uid <->
          rejectedFileValue (getProp candidate key)
          \/ getProp candidate key = JStr uid)
    /\ getProp (mergeMetadata scenarioBaseline scenarioCandidate) "patientName"
         = JStr "Jane Doe"
    /\ getProp (mergeMetadata scenarioBaseline scenarioCandidate) "studyInstanceUid"
         = JStr "9.9.9"
    /\ getProp (mergeMetadata scenarioBaseline scenarioCandidate) "modality"
         = JStr "CT".
Proof.
  intros baseline candidate key uid _ Hbase.
  assert (Hstored : getProp baseline key = JStr uid)
    by (unfold getProp; by rewrite Hbase).
  split; [|split; [|split; [|split; [|by vm_compute]]]].
  - intros Hrej. by rewrite mergeMetadata_getProp, (rejected_not_taken _ Hrej).
  - intros s Hs Hne1 Hne2. rewrite mergeMetadata_getProp.
    unfold getProp at 1 2. rewrite Hs. simpl.
    apply String.eqb_neq in Hne1, Hne2. by rewrite Hne1, Hne2.
  - intros Hacc. rewrite mergeMetadata_getProp.
    destruct (nonEmptyFileValue (getProp candidate key)) eqn:Hguard; [done|].
    exfalso. by apply Hacc, not_taken_rejected.
  - rewrite mergeMetadata_getProp.
    destruct (nonEmptyFileValue (getProp candidate key)) eqn:Hguard.
    + split; [by right|]. intros [Hrej | Heq]; [|done].
      apply rejected_not_taken in Hrej. congruence.
    + split; [|done]. intros _. left. by apply not_taken_rejected.
Qed.

Lemma C2_uid_kept_only_without_file_value_witness :
  getProp (mergeMetadata scenarioBaseline emptyMetadata) "studyInstanceUid"
    = JStr "1.2.3"
  /\ getProp (mergeMetadata scenarioBaseline scenarioCandidate) "studyInstanceUid"
    = JStr "9.9.9"
  /\ getProp (mergeMetadata scenarioBaseline scenarioBaseline) "studyInstanceUid"
    = JStr "1.2.3".
Proof.
  pose proof (C2_uid_kept_only_without_file_value
                scenarioBaseline emptyMetadata "studyInstanceUid" "1.2.3"
                (or_introl eq_refl) eq_refl) as [Hkeep _].
  pose proof (C2_uid_kept_only_without_file_value
                scenarioBaseline scenarioCandidate "studyInstanceUid" "1.2.3"
                (or_introl eq_refl) eq_refl) as (_ & Hrepl & _).
  pose proof (C2_uid_kept_only_without_file_value
                scenarioBaseline scenarioBaseline "studyInstanceUid" "1.2.3"
                (or_introl eq_refl) eq_refl) as (_ & _ & _ & Hsame & _).
  split; [|split].
  - apply Hkeep. change (getProp emptyMetadata "studyInstanceUid") with (JStr "").
    constructor.
  - apply Hrepl; [reflexivity | discriminate | discriminate].
  - apply Hsame. right. reflexivity.
Defined.

(** C7 (as stated, refuted).  The first identity law fails: a candidate whose
    patientName is the text "Not available" merged into the all-empty
    baseline does not come back; the field stays empty. *)
Lemma C7_empty_baseline_not_identity :
  let candidate := <["patientName" := JStr "Not available"]> emptyMetadata in
  mergeMetadata emptyMetadata candidate <> candidate
  /\ getProp (mergeMetadata emptyMetadata candidate) "patientName" = JStr "".
Proof.
  split; [|by vm_compute].
  intros H. apply (f_equal (fun m => m !! "patientName")) in H.
  vm_compute in H. discriminate H.
Qed.

(** C7 (amended).  Merging the all-empty baseline with a fully populated
    candidate yields exactly the candidate provided every value of the
    candidate that the guard rejects is the empty sentinel of its field (so no
    field holds 'Not available', null or undefined); and merging any baseline
    with the all-empty candidate yields the baseline unchanged. *)
Theorem C7_identity_laws :
  (forall candidate : gmap string jsval,
      map_Forall (fun f _ => is_Some (candidate !! f)) emptyMetadata ->
      map_Forall (fun f v => nonEmptyFileValue v = false ->
                             emptyMetadata !! f = Some v) candidate ->
      mergeMetadata emptyMetadata candidate = candidate)
  /\ (forall baseline : gmap string jsval,
        mergeMetadata baseline emptyMetadata = baseline).
Proof.
  split.
  - intros candidate Hfull Hblank. apply map_eq. intros f.
    rewrite mergeMetadata_lookup.
    destruct (candidate !! f) as [v|] eqn:Hf.
    + destruct (nonEmptyFileValue v) eqn:Hv; [done|].
      by apply (Hblank f v).
    + destruct (emptyMetadata !! f) as [e|] eqn:He; [|done].
      destruct (Hfull f e He) as [v Hv]. congruence.
  - intros baseline. apply map_eq. intros f.
    rewrite mergeMetadata_lookup.
    destruct (emptyMetadata !! f) as [v|] eqn:Hf; [|done].
    assert (Hall : map_Forall (fun _ v => nonEmptyFileValue v = false) emptyMetadata).
    { apply map_Forall_to_list. vm_compute. repeat constructor. }
    by rewrite (Hall f v Hf).
Qed.

Lemma C7_identity_laws_witness :
  mergeMetadata emptyMetadata scenarioCandidate = scenarioCandidate.
Proof.
  apply (proj1 C7_identity_laws).
  - apply map_Forall_to_list. vm_compute. repeat constructor; eexists; reflexivity.
  - apply map_Forall_to_list.
    set (l := map_to_list scenarioCandidate). vm_compute in l. subst l.
    repeat constructor; simpl; intros H; try discriminate H; by vm_compute.
Defined.

(** C10.  In the merge loop a candidate value that is null, undefined, the
    empty string, the number 0 or the text "Not available" is never written:
    the merged record keeps whatever the baseline has under that key (also
    when that is the empty sentinel, and also when the baseline lacks the
    key). *)
Theorem C10_rejected_values_never_written :
  forall (baseline candidate : gmap string jsval) (f : string),
    rejectedFileValue (getProp candidate f) ->
    mergeMetadata baseline candidate !! f = baseline !! f.
Proof.
  intros baseline candidate f Hrej.
  apply rejected_not_taken in Hrej.
  rewrite mergeMetadata_lookup. unfold getProp in Hrej.
  destruct (candidate !! f) as [v|]; simpl in Hrej; [|done].
  by rewrite Hrej.
Qed.

Lemma C10_rejected_values_never_written_witness :
  mergeMetadata emptyMetadata
    (<["patientName" := JStr "Not available"]> (<["rows" := jzero]> emptyMetadata))
    !! "patientName" = Some (JStr "")
  /\ mergeMetadata emptyMetadata
    (<["patientName" := JStr "Not available"]> (<["rows" := jzero]> emptyMetadata))
    !! "rows" = Some jzero.
Proof.
  split.
  - rewrite C10_rejected_values_never_written; [reflexivity|].
    change (rejectedFileValue (JStr "Not available")). constructor.
  - rewrite C10_rejected_values_never_written; [reflexivity|].
    change (rejectedFileValue (JNum (Num 0))). constructor. reflexivity.
Defined.

(** ** Field normalisation *)

Lemma length8_inv (s : string) :
  String.length s = 8 ->
  exists a b c d e f g h,
    s = String a (String b (String c (String d
         (String e (String f (String g (String h EmptyString))))))).
Proof.
  intros H.
  repeat (destruct s as [|? s]; [discriminate H|]).
  destruct s; [|discriminate H].
  by repeat eexists.
Qed.

Lemma formatDate_other_length (s : string) :
  String.length s <> 8 -> formatDate s = s.
Proof.
  intros H. unfold formatDate.
  apply Nat.eqb_neq in H. rewrite H. simpl. by rewrite orb_true_r.
Qed.

Lemma formatDate_length8 (a b c d e f g h : ascii) :
  formatDate (String a (String b (String c (String d
               (String e (String f (String g (String h EmptyString))))))))
  = String a (String b (String c (String d (String "-"
      (String e (String f (String "-" (String g (String h EmptyString))))))))).
Proof. reflexivity. Qed.

(** C6.  [formatDate] rewrites YYYYMMDD as YYYY-MM-DD exactly when the input
    has 8 characters (the eight characters are kept, in order, with a dash
    after the fourth and after the sixth) and returns every input of another
    length, the empty one included, unchanged; "20230115" gives "2023-01-15"
    and "2023" gives "2023". *)
Theorem C6_formatDate_by_length :
  (forall s : string,
      formatDate s =
        if Nat.eqb (String.length s) 8
        then String.substring 0 4 s +:+ "-" +:+ String.substring 4 2 s
               +:+ "-" +:+ String.substring 6 2 s
        else s)
  /\ (forall a b c d e f g h : ascii,
        formatDate (String a (String b (String c (String d
                     (String e (String f (String g (String h EmptyString))))))))
        = String a (String b (String c (String d (String "-"
            (String e (String f (String "-" (String g (String h EmptyString))))))))))
  /\ (forall s : string,
        String.eqb (formatDate s) s = negb (Nat.eqb (String.length s) 8))
  /\ formatDate "20230115" = "2023-01-15"
  /\ formatDate "2023" = "2023"
  /\ formatDate "" = "".
Proof.
  split; [|split; [|split; [|by vm_compute]]].
  - intros s. destruct (Nat.eqb (String.length s) 8) eqn:Hlen.
    + apply Nat.eqb_eq in Hlen.
      destruct (length8_inv s Hlen) as (a & b & c & d & e & f & g & h & ->).
      reflexivity.
    + apply Nat.eqb_neq in Hlen. by apply formatDate_other_length.
  - intros. apply formatDate_length8.
  - intros s. destruct (Nat.eqb (String.length s) 8) eqn:Hlen; simpl.
    + apply Nat.eqb_eq in Hlen.
      destruct (length8_inv s Hlen) as (a & b & c & d & e & f & g & h & ->).
      rewrite formatDate_length8. apply String.eqb_neq.
      intros Heq. apply (f_equal String.length) in Heq. discriminate Heq.
    + apply Nat.eqb_neq in Hlen. rewrite formatDate_other_length by done.
      apply String.eqb_refl.
Qed.

Lemma normalizeInt_cases (raw : string) :
  normalizeInt raw = if String.eqb raw "" then Num 0 else parseInt raw.
Proof. unfold normalizeInt, strOr. by destruct (String.eqb raw ""). Qed.

Lemma normalizeFloat_cases (raw : string) :
  normalizeFloat raw = if String.eqb raw "" then Num 0 else parseFloat raw.
Proof. unfold normalizeFloat, strOr. by destruct (String.eqb raw ""). Qed.

(** C5 (what the code does).  Empty input is normalised to 0 on both the
    integer and the float path, and neither path can raise (both functions
    are total); but a non-empty input is handed to [parseInt] / [parseFloat]
    as it is, and "abc", which has no numeric prefix, comes out as NaN, not
    0.  On the viewer path a Rows element holding "abc" makes the candidate's
    rows NaN, which the merge then writes over a stored value of 512. *)
Theorem C5_unparsable_input_is_NaN :
  normalizeInt "" = Num 0
  /\ normalizeFloat "" = Num 0
  /\ normalizeInt "abc" = NaN
  /\ normalizeFloat "abc" = NaN
  /\ normalizeInt "abc" <> Num 0
  /\ (forall raw : string,
        normalizeInt raw = if String.eqb raw "" then Num 0 else parseInt raw)
  /\ (forall raw : string,
        normalizeFloat raw = if String.eqb raw "" then Num 0 else parseFloat raw)
  /\ extractedMetadataOf badRowsImage (Some badRowsDictionary) = Returns badRowsExtracted
  /\ getProp badRowsExtracted "rows" = JNum NaN
  /\ getProp (mergeMetadata (<["rows" := JNum (Num 512)]> emptyMetadata)
                            badRowsExtracted) "rows" = JNum NaN.
Proof.
  split; [vm_compute; reflexivity|].
  split; [vm_compute; reflexivity|].
  split; [vm_compute; reflexivity|].
  split; [vm_compute; reflexivity|].
  split; [vm_compute; discriminate|].
  split; [apply normalizeInt_cases|].
  split; [apply normalizeFloat_cases|].
  split; [|split; vm_compute; reflexivity].
  unfold badRowsExtracted.
  destruct (extractedMetadataOf badRowsImage (Some badRowsDictionary)) eqn:E;
    [reflexivity|].
  assert (H : match extractedMetadataOf badRowsImage (Some badRowsDictionary) with
              | Returns _ => true
              | Throws => false
              end = true) by (vm_compute; reflexivity).
  rewrite E in H. discriminate H.
Qed.

(** ** Tag lookup *)

Section TagLookup.
Variable dataset : option elementDictionary.

Lemma getTagValue_returns (tagName : string) :
  exists s, getTagValue dataset tagName = Returns s.
Proof.
  unfold getTagValue, tryCatch.
  destruct (getTagValueBody dataset tagName); eauto.
Qed.

Lemma getTagLoop_returns (fs : list string) :
  exists s, getTagLoop dataset fs = Returns s.
Proof.
  induction fs as [|format rest IH]; simpl; [eauto|].
  destruct (getTagValue_returns format) as [v ->]. simpl.
  destruct (String.eqb v ""); eauto.
Qed.

Lemma getTag_returns (key : string) :
  exists s, getTag dataset key = Returns s.
Proof. apply getTagLoop_returns. Qed.

Lemma getTagLoop_step (format : string) (rest : list string) :
  getTagLoop dataset (format :: rest) =
  match getTagValueBody dataset format with
  | Returns v => if String.eqb v "" then getTagLoop dataset rest else Returns v
  | Throws => getTagLoop dataset rest
  end.
Proof.
  simpl. unfold getTagValue, tryCatch.
  by destruct (getTagValueBody dataset format).
Qed.
End TagLookup.

(** C8.  Tag resolution never raises, whatever the dictionary (a null one
    and one whose property reads throw included): [getTagValue] and [getTag]
    always return a string.  An error while looking up one spelling is
    turned into [''] for that spelling, after which the loop goes on with
    the remaining spellings exactly as if the spelling had not been found;
    a null dictionary resolves every key to ['']. *)
Theorem C8_tag_resolution_never_raises :
  (forall (dataset : option elementDictionary) (tagName : string),
      exists s, getTagValue dataset tagName = Returns s)
  /\ (forall (dataset : option elementDictionary) (key : string),
        exists s, getTag dataset key = Returns s)
  /\ (forall (dataset : option elementDictionary) (format : string) (rest : list string),
        getTagLoop dataset (format :: rest) =
        match getTagValueBody dataset format with
        | Returns v => if String.eqb v "" then getTagLoop dataset rest else Returns v
        | Throws => getTagLoop dataset rest
        end)
  /\ (forall key : string, getTag None key = Returns "")
  /\ getTagValueBody (Some brokenDictionary) "00100010" = Throws
  /\ getTagValue (Some brokenDictionary) "00100010" = Returns ""
  /\ getTag (Some brokenDictionary) "00100010" = Returns "DOE^JANE".
Proof.
  split; [exact getTagValue_returns|].
  split; [exact getTag_returns|].
  split; [exact getTagLoop_step|].
  split; [reflexivity|].
  repeat split; by vm_compute.
Qed.

Lemma joinItems_converted (items : list arrayItem) (strs : list string)
    (separator : string) :
  Forall2 (fun item s => itemToString item = Returns s) items strs ->
  joinItems items separator = Returns (String.concat separator strs).
Proof.
  induction 1 as [|item s items strs Hitem Hrest IH]; [reflexivity|].
  destruct Hrest as [|item' s' items' strs' Hitem' Hrest'].
  - simpl. exact Hitem.
  - change (joinItems (item :: item' :: items') separator)
      with (let! a := itemToString item in
            let! r := joinItems (item' :: items') separator in
            Returns (a +:+ separator +:+ r)).
    rewrite Hitem, IH. reflexivity.
Qed.

(** C9.  An element whose value is an array is resolved to its items joined
    with a backslash: when the array is found under the key itself or under
    its [x]-prefixed spelling and its items convert to the strings [strs],
    [getTagValue] returns those strings separated by backslashes; the
    dictionary holding ["CT", "AXIAL"] for the image type resolves to
    "CT\AXIAL". *)
Theorem C9_array_values_joined_with_backslash :
  forall (dataset : elementDictionary) (tagName : string)
         (items : list arrayItem) (strs : list string),
    Forall2 (fun item s => itemToString item = Returns s) items strs ->
    dataset tagName = Returns (Element (Returns (RawArray items)))
    \/ (dataset tagName = Returns Missing
        /\ startsWithX tagName = false
        /\ dataset ("x" +:+ tagName) = Returns (Element (Returns (RawArray items)))) ->
    getTagValue (Some dataset) tagName = Returns (String.concat backslash strs).
Proof.
  intros dataset tagName items strs Hitems [H | (H1 & H2 & H3)];
    unfold getTagValue, getTagValueBody.
  - rewrite H. simpl. by rewrite (joinItems_converted _ _ _ Hitems).
  - rewrite H1. simpl. rewrite H2. simpl. rewrite H3. simpl.
    by rewrite (joinItems_converted _ _ _ Hitems).
Qed.

Lemma C9_array_values_joined_with_backslash_witness :
  getTagValue (Some imageTypeDictionary) "x00080008" = Returns "CT\AXIAL"
  /\ getTagValue (Some imageTypeDictionary) "00080008" = Returns "CT\AXIAL".
Proof.
  split.
  - apply (C9_array_values_joined_with_backslash
             imageTypeDictionary "x00080008"
             [ItemString "CT"; ItemString "AXIAL"] ["CT"; "AXIAL"]).
    + repeat constructor.
    + left. reflexivity.
  - apply (C9_array_values_joined_with_backslash
             imageTypeDictionary "00080008"
             [ItemString "CT"; ItemString "AXIAL"] ["CT"; "AXIAL"]).
    + repeat constructor.
    + right. repeat split; reflexivity.
Defined.

Example getTag_image_type :
  getTag (Some imageTypeDictionary) "00080008" = Returns "CT\AXIAL".
Proof. by vm_compute. Qed.

(** ** The response handler *)

Section ResponseFields.
Variable normalized : gmap string jsval.

Lemma applyField_other (metadata : gmap string jsval)
    (field : string * list string) (t : string) :
  field.1 <> t -> applyField normalized metadata field !! t = metadata !! t.
Proof.
  intros Hne. unfold applyField.
  destruct (firstPresent normalized field.2); [|done].
  by rewrite lookup_insert_ne.
Qed.

Lemma applyFields_untouched (fields : list (string * list string)) :
  forall (metadata : gmap string jsval) (t : string),
    t ∉ fields.*1 ->
    foldl (applyField normalized) metadata fields !! t = metadata !! t.
Proof.
  induction fields as [|field rest IH]; intros metadata t Hnot; [done|].
  simpl. rewrite fmap_cons, not_elem_of_cons in Hnot. destruct Hnot as [Hne Hrest].
  rewrite IH by done. by apply applyField_other.
Qed.

Lemma applyFields_target (fields : list (string * list string)) :
  forall (metadata : gmap string jsval) (t : string) (apiKeys : list string),
    NoDup fields.*1 ->
    (t, apiKeys) ∈ fields ->
    foldl (applyField normalized) metadata fields !! t =
    match firstPresent normalized apiKeys with
    | Some v => Some v
    | None => metadata !! t
    end.
Proof.
  induction fields as [|field rest IH]; intros metadata t apiKeys Hnd Hin.
  - by apply elem_of_nil in Hin.
  - rewrite fmap_cons in Hnd. apply NoDup_cons in Hnd as [Hfresh Hnd].
    apply elem_of_cons in Hin as [<- | Hin]; simpl.
    + rewrite applyFields_untouched by done.
      unfold applyField. simpl.
      destruct (firstPresent normalized apiKeys); [|done].
      by rewrite lookup_insert_eq.
    + rewrite (IH _ t apiKeys) by done.
      destruct (firstPresent normalized apiKeys); [done|].
      apply applyField_other. intros Heq. apply Hfresh.
      rewrite Heq. by apply (list_elem_of_fmap_2 fst _ (t, apiKeys)).
Qed.
End ResponseFields.

Lemma fieldsToCheck_targets_distinct : NoDup fieldsToCheck.*1.
Proof. apply (bool_decide_unpack _). by vm_compute. Qed.


(** ** Sequencing of the two sources *)

Lemma timer_runs_whatever_is_pending (c : component) (n : nat) :
  pendingTimers c = S n ->
  step c TimerFired = Some (loadAndDisplayImage (setPendingTimers c n)).
Proof. intros H. simpl. by rewrite H. Qed.

(** C3 (what the code does).  [ngOnChanges] starts the baseline fetch and
    arms a timer; the timer callback starts the load, and the extraction
    that follows it, without looking at the fetch.  In the run "view ready,
    image 1 selected, timer fires, image loaded" the extraction has merged
    the file into the all-empty placeholder and posted the result while the
    fetch for image 1 is still outstanding; so the ordering is not a
    dependency on the fetch's completion.  When the stored record arrives
    afterwards it is written over the file values, and the record differs
    from the one obtained when the answer arrives first. *)
Theorem C3_extraction_can_run_before_baseline :
  ~ extractionAfterBaseline
  /\ (exists c,
        run initialComponent
          [ViewInit; InputChanged (Some 1%Z); TimerFired; ImageLoaded 1%Z sampleImage]
          = Some c
        /\ pendingFetches c = [1%Z]
        /\ getProp (default ∅ (dicomMetadata c)) "studyInstanceUid" = JStr "9.9.9"
        /\ (exists saved, savedPayloads c = [(1%Z, saved)]
                          /\ dicomMetadata c = Some saved
                          /\ getProp saved "patientName" = JStr "DOE^JANE"))
  /\ (exists late early,
        run initialComponent
          [ViewInit; InputChanged (Some 1%Z); TimerFired; ImageLoaded 1%Z sampleImage;
           FetchResponded 1%Z (Some sampleResponse)] = Some late
        /\ run initialComponent
          [ViewInit; InputChanged (Some 1%Z); FetchResponded 1%Z (Some sampleResponse);
           TimerFired; ImageLoaded 1%Z sampleImage] = Some early
        /\ getProp (default ∅ (dicomMetadata late)) "studyInstanceUid" = JStr "1.2.3"
        /\ getProp (default ∅ (dicomMetadata early)) "studyInstanceUid" = JStr "9.9.9").
Proof.
  split; [|split].
  - intros H.
    specialize (H [ViewInit; InputChanged (Some 1%Z)]).
    simpl in H.
    specialize (H _ _ 1%Z eq_refl eq_refl eq_refl eq_refl).
    discriminate H.
  - eexists. split; [reflexivity|].
    split; [reflexivity|]. split; [by vm_compute|].
    eexists. split; [reflexivity|]. split; [reflexivity|]. by vm_compute.
  - eexists _, _. split; [reflexivity|]. split; [reflexivity|].
    split; by vm_compute.
Qed.






Lemma switchedComponent_reachable :
  run initialComponent
    [ViewInit; InputChanged (Some 1%Z); TimerFired; InputChanged (Some 2%Z)]
  = Some switchedComponent.
Proof. reflexivity. Qed.


(* ================================================================== *)
(** * Further properties of the metadata path                          *)
(* ================================================================== *)

(** ** The merge loop *)

(** Merging the same candidate a second time changes nothing. *)
Theorem mergeMetadata_idempotent (baseline candidate : gmap string jsval) :
  mergeMetadata (mergeMetadata baseline candidate) candidate
  = mergeMetadata baseline candidate.
Proof.
  apply map_eq. intros k. rewrite !mergeMetadata_lookup.
  destruct (candidate !! k) as [v|]; [|done].
  by destruct (nonEmptyFileValue v).
Qed.

(** Two extractions in a row amount to one extraction of the second
    candidate merged over the first. *)
Theorem mergeMetadata_assoc (baseline first second : gmap string jsval) :
  mergeMetadata (mergeMetadata baseline first) second
  = mergeMetadata baseline (mergeMetadata first second).
Proof.
  apply map_eq. intros k. rewrite !mergeMetadata_lookup.
  destruct (second !! k) as [v2|].
  - destruct (nonEmptyFileValue v2) eqn:H2; [by rewrite H2|].
    destruct (first !! k) as [v1|]; [|done].
    by destruct (nonEmptyFileValue v1).
  - destruct (first !! k) as [v1|]; [|done].
    by destruct (nonEmptyFileValue v1).
Qed.

(** The merge never drops a key of the baseline, and a key it adds comes
    from the candidate. *)
Theorem mergeMetadata_keys (baseline candidate : gmap string jsval) :
  dom baseline ⊆ dom (mergeMetadata baseline candidate)
  /\ dom (mergeMetadata baseline candidate) ⊆ dom baseline ∪ dom candidate.
Proof.
  split; intros k; rewrite ?elem_of_union, !elem_of_dom, mergeMetadata_lookup.
  - intros Hk. destruct (candidate !! k) as [v|]; [|done].
    destruct (nonEmptyFileValue v); [by eexists | done].
  - destruct (candidate !! k) as [v|]; [|by left].
    destruct (nonEmptyFileValue v); [right; by eexists | by left].
Qed.

(** A field that holds a value the guard would accept still holds such a
    value after the merge: a merge can replace a meaningful value by another
    one, never by an empty one. *)
Theorem mergeMetadata_keeps_fields_meaningful
    (baseline candidate : gmap string jsval) (f : string) :
  nonEmptyFileValue (getProp baseline f) = true ->
  nonEmptyFileValue (getProp (mergeMetadata baseline candidate) f) = true.
Proof.
  intros H. rewrite mergeMetadata_getProp.
  by destruct (nonEmptyFileValue (getProp candidate f)) eqn:Hc.
Qed.

Lemma mergeMetadata_keeps_fields_meaningful_witness :
  nonEmptyFileValue
    (getProp (mergeMetadata scenarioBaseline scenarioCandidate) "studyInstanceUid")
  = true.
Proof.
  apply (mergeMetadata_keeps_fields_meaningful
           scenarioBaseline scenarioCandidate "studyInstanceUid").
  reflexivity.
Defined.

(** ** Tag lookup: order of the spellings, fallbacks, failing items *)

Lemma getTagValue_agree (d1 d2 : elementDictionary) (tagName : string) :
  d1 tagName = d2 tagName ->
  d1 ("x" +:+ tagName) = d2 ("x" +:+ tagName) ->
  getTagValue (Some d1) tagName = getTagValue (Some d2) tagName.
Proof.
  intros H1 H2. unfold getTagValue, getTagValueBody. by rewrite H1, H2.
Qed.

Lemma getTagLoop_agree (d1 d2 : elementDictionary) (fs : list string) :
  (forall k, k ∈ (fs ++ map (String.append "x") fs)%list -> d1 k = d2 k) ->
  getTagLoop (Some d1) fs = getTagLoop (Some d2) fs.
Proof.
  induction fs as [|f rest IH]; intros Hagree; [done|].
  simpl. rewrite (getTagValue_agree d1 d2 f).
  - destruct (getTagValue (Some d2) f) as [v|]; simpl; [|done].
    destruct (String.eqb v ""); [|done].
    apply IH. intros k Hk. apply Hagree.
    rewrite elem_of_app in Hk. rewrite elem_of_app, fmap_cons, !elem_of_cons.
    destruct Hk as [Hk|Hk]; [left; by right | right; by right].
  - apply Hagree. rewrite elem_of_app. left. by left.
  - apply Hagree. rewrite elem_of_app. right. simpl. by left.
Qed.

(** [getTag] looks at the dictionary only under the five spellings of the
    key and their [x]-prefixed forms: two dictionaries that agree there
    resolve the key alike. *)
Theorem getTag_reads_only_its_spellings (d1 d2 : elementDictionary) (key : string) :
  (forall k, k ∈ keysRead key -> d1 k = d2 k) ->
  getTag (Some d1) key = getTag (Some d2) key.
Proof. intros H. unfold getTag. by apply getTagLoop_agree. Qed.

Lemma getTag_reads_only_its_spellings_witness :
  getTag (Some brokenDictionary) "PatientName"
  = getTag (Some (fun _ => Returns Missing)) "PatientName".
Proof.
  apply (getTag_reads_only_its_spellings
           brokenDictionary (fun _ => Returns Missing) "PatientName").
  intros k Hk. unfold keysRead in Hk. simpl in Hk.
  repeat (apply elem_of_cons in Hk as [-> | Hk]; [reflexivity|]).
  by apply elem_of_nil in Hk.
Defined.

Lemma getTagLoop_first_hit (dataset : option elementDictionary)
    (pre : list string) (f : string) (post : list string) (v : string) :
  Forall (fun g => getTagValue dataset g = Returns "") pre ->
  getTagValue dataset f = Returns v ->
  v <> "" ->
  getTagLoop dataset (pre ++ f :: post) = Returns v.
Proof.
  intros Hpre Hf Hv. induction Hpre as [|g pre Hg _ IH]; simpl.
  - rewrite Hf. simpl. apply String.eqb_neq in Hv. by rewrite Hv.
  - rewrite Hg. simpl. exact IH.
Qed.

(** The first spelling with a non-empty value decides: when the spellings
    before [f] all resolve to [''] and [f] resolves to a non-empty [v],
    [getTag] returns [v], whatever the later spellings hold. *)
Theorem getTag_first_nonempty_spelling (dataset : option elementDictionary)
    (key : string) (pre : list string) (f : string) (post : list string) (v : string) :
  formats key = (pre ++ f :: post)%list ->
  Forall (fun g => getTagValue dataset g = Returns "") pre ->
  getTagValue dataset f = Returns v ->
  v <> "" ->
  getTag dataset key = Returns v.
Proof.
  intros Hfs Hpre Hf Hv. unfold getTag. rewrite Hfs.
  by apply getTagLoop_first_hit.
Qed.

Lemma getTag_first_nonempty_spelling_witness :
  getTag (Some brokenDictionary) "00100010" = Returns "DOE^JANE".
Proof.
  apply (getTag_first_nonempty_spelling (Some brokenDictionary) "00100010"
           ["00100010"] "x00100010" ["00100010"; "00100010"; "00100010"]).
  - reflexivity.
  - repeat constructor.
  - reflexivity.
  - discriminate.
Defined.

Lemma getTagLoop_result_from_spelling (dataset : option elementDictionary)
    (fs : list string) (v : string) :
  getTagLoop dataset fs = Returns v -> v <> "" ->
  exists f, f ∈ fs /\ getTagValue dataset f = Returns v.
Proof.
  induction fs as [|f rest IH]; simpl; intros Hres Hv.
  - congruence.
  - destruct (getTagValue dataset f) as [w|] eqn:Hf; simpl in Hres; [|done].
    destruct (String.eqb w "") eqn:Hw.
    + destruct (IH Hres Hv) as (g & Hg & Hgv). exists g. split; [by right | done].
    + exists f. split; [by left | congruence].
Qed.

(** A non-empty result of [getTag] is the value [getTagValue] gives for one
    of the five spellings of the key. *)
Theorem getTag_result_from_spelling (dataset : option elementDictionary)
    (key v : string) :
  getTag dataset key = Returns v -> v <> "" ->
  exists f, f ∈ formats key /\ getTagValue dataset f = Returns v.
Proof. apply getTagLoop_result_from_spelling. Qed.

Lemma getTag_result_from_spelling_witness :
  exists f, f ∈ formats "00080008"
            /\ getTagValue (Some imageTypeDictionary) f = Returns "CT\AXIAL".
Proof.
  apply (getTag_result_from_spelling (Some imageTypeDictionary) "00080008" "CT\AXIAL").
  - reflexivity.
  - discriminate.
Defined.

Lemma getTagValue_missing (d : elementDictionary) (tagName : string) :
  d tagName = Returns Missing ->
  d ("x" +:+ tagName) = Returns Missing ->
  getTagValue (Some d) tagName = Returns "".
Proof.
  intros H1 H2. unfold getTagValue, getTagValueBody. rewrite H1. simpl.
  destruct (startsWithX tagName); simpl; [done|]. by rewrite H2.
Qed.

Lemma getTagLoop_nothing (d : elementDictionary) (fs : list string) :
  (forall k, k ∈ (fs ++ map (String.append "x") fs)%list -> d k = Returns Missing) ->
  getTagLoop (Some d) fs = Returns "".
Proof.
  intros H.
  rewrite (getTagLoop_agree d (fun _ => Returns Missing) fs) by exact H.
  clear H. induction fs as [|f rest IH]; [done|].
  simpl. rewrite getTagValue_missing by done. simpl. exact IH.
Qed.

(** Keyword fallback.  When the dictionary has nothing under any spelling of
    the numeric tag but holds a non-empty string under the keyword itself,
    [getTag(tag) || getTag(keyword)] resolves to that string. *)
Theorem getTagOr_keyword_fallback (d : elementDictionary) (tag keyword s : string) :
  (forall k, k ∈ keysRead tag -> d k = Returns Missing) ->
  d keyword = Returns (Element (Returns (RawString s))) ->
  s <> "" ->
  getTagOr (Some d) tag keyword = Returns s.
Proof.
  intros Hnone Hkw Hs. unfold getTagOr, getTag.
  rewrite (getTagLoop_nothing d (formats tag)) by exact Hnone.
  change (getTagLoop (Some d) (formats keyword) = Returns s).
  change (formats keyword)
    with ([] ++ keyword :: ["x" +:+ keyword; toLowerCase keyword;
                            toUpperCase keyword; removeParens keyword])%list.
  apply getTagLoop_first_hit; [constructor | | done].
  unfold getTagValue, getTagValueBody. by rewrite Hkw.
Qed.

Lemma getTagOr_keyword_fallback_witness :
  getTagOr (Some (singleElementDictionary "PatientName" "DOE^JANE"))
           "00100010" "PatientName" = Returns "DOE^JANE".
Proof.
  apply (getTagOr_keyword_fallback
           (singleElementDictionary "PatientName" "DOE^JANE")
           "00100010" "PatientName" "DOE^JANE").
  - intros k Hk. unfold keysRead in Hk. simpl in Hk.
    repeat (apply elem_of_cons in Hk as [-> | Hk]; [reflexivity|]).
    by apply elem_of_nil in Hk.
  - reflexivity.
  - discriminate.
Defined.

Lemma joinItems_throws (items : list arrayItem) (separator : string) :
  Exists (fun item => itemToString item = Throws) items ->
  joinItems items separator = Throws.
Proof.
  induction items as [|item rest IH]; intros Hex.
  - by apply Exists_nil in Hex.
  - destruct rest as [|item' rest'].
    + apply Exists_cons in Hex as [H | H]; [exact H | by apply Exists_nil in H].
    + change (joinItems (item :: item' :: rest') separator)
        with (let! a := itemToString item in
              let! r := joinItems (item' :: rest') separator in
              Returns (a +:+ separator +:+ r)).
      apply Exists_cons in Hex as [H | H].
      * by rewrite H.
      * rewrite (IH H). by destruct (itemToString item).
Qed.

(** An array value with an item whose conversion to a string throws is
    resolved to [''], not to a partial join: the failure of [join] is caught
    by [getTagValue]. *)
Theorem getTagValue_array_with_failing_item (d : elementDictionary)
    (tagName : string) (items : list arrayItem) :
  d tagName = Returns (Element (Returns (RawArray items))) ->
  Exists (fun item => itemToString item = Throws) items ->
  getTagValue (Some d) tagName = Returns "".
Proof.
  intros Hd Hex. unfold getTagValue, getTagValueBody. rewrite Hd. simpl.
  by rewrite (joinItems_throws _ _ Hex).
Qed.

Lemma getTagValue_array_with_failing_item_witness :
  getTagValue
    (Some (fun _ => Returns (Element (Returns
             (RawArray [ItemString "CT"; ItemOther Throws; ItemString "AXIAL"])))))
    "00080008" = Returns "".
Proof.
  apply (getTagValue_array_with_failing_item _ "00080008"
           [ItemString "CT"; ItemOther Throws; ItemString "AXIAL"]).
  - reflexivity.
  - apply Exists_cons_tl, Exists_cons_hd. reflexivity.
Defined.

(** ** The candidate record *)

Lemma getTagOr_returns (dataset : option elementDictionary) (tag keyword : string) :
  exists s, getTagOr dataset tag keyword = Returns s.
Proof.
  unfold getTagOr. destruct (getTag_returns dataset tag) as [v ->].
  cbn [andThen]. destruct (String.eqb v ""); [apply getTag_returns | eauto].
Qed.

Lemma numOrZero_not_NaN (n : jsnum) : numOrZero n <> NaN.
Proof. destruct n as [| |q]; simpl; try done. by destruct (Qeq_bool q 0). Qed.

Lemma andThen_returns {A B : Type} (o : outcome A) (k : A -> outcome B)
    (P : B -> Prop) :
  (exists a, o = Returns a) ->
  (forall a, exists b, k a = Returns b /\ P b) ->
  exists b, andThen o k = Returns b /\ P b.
Proof. intros [a ->] Hk. apply Hk. Qed.

Ltac resolve_tags :=
  repeat (apply andThen_returns; [apply getTagOr_returns | intros ?]).

(** Building the candidate never throws, whatever the dictionary, and the
    candidate always has exactly the twenty properties of the all-empty
    record; its window centre and width are never NaN. *)
Theorem extractedMetadataOf_fully_populated
    (image : cornerstoneImage) (dataset : option elementDictionary) :
  exists m,
    extractedMetadataOf image dataset = Returns m
    /\ (dom m = dom emptyMetadata
        /\ getProp m "windowCenter" <> JNum NaN
        /\ getProp m "windowWidth" <> JNum NaN
        /\ getProp m "imageId" = JStr (imageId image)).
Proof.
  unfold extractedMetadataOf. resolve_tags.
  eexists. split; [reflexivity|]. split; [|split; [|split]].
  - unfold emptyMetadata. rewrite !dom_insert_L. reflexivity.
  - unfold getProp. do 18 (rewrite lookup_insert_ne by done).
    rewrite lookup_insert_eq. cbn [default].
    intros [= H]. by apply numOrZero_not_NaN in H.
  - unfold getProp. do 19 (rewrite lookup_insert_ne by done).
    rewrite lookup_insert_eq. cbn [default].
    intros [= H]. by apply numOrZero_not_NaN in H.
  - unfold getProp. do 16 (rewrite lookup_insert_ne by done).
    by rewrite lookup_insert_eq.
Qed.

Lemma getTagLoop_no_dictionary (fs : list string) : getTagLoop None fs = Returns "".
Proof. induction fs as [|f rest IH]; [done|]. exact IH. Qed.

Lemma getTagOr_no_dictionary (tag keyword : string) :
  getTagOr None tag keyword = Returns "".
Proof.
  unfold getTagOr, getTag. rewrite getTagLoop_no_dictionary. cbn [andThen].
  change (String.eqb "" "") with true. cbv iota. apply getTagLoop_no_dictionary.
Qed.

(** With a falsy dictionary (the image carries no element table) every tag
    resolves to [''], so the candidate is the all-empty record except for
    the image id and the window values taken from the image itself. *)
Theorem extractedMetadataOf_without_dictionary (image : cornerstoneImage) :
  extractedMetadataOf image None =
  Returns (<["imageId" := JStr (imageId image)]> (
           <["windowCenter" := JNum (numOrZero (windowCenter image))]> (
           <["windowWidth" := JNum (numOrZero (windowWidth image))]> emptyMetadata))).
Proof.
  unfold extractedMetadataOf. rewrite !getTagOr_no_dictionary. cbn [andThen].
  reflexivity.
Qed.

(** ** The response handler: aliases, key case, blank values *)

Lemma applyApiResponse_target (response : list (string * jsval))
    (metadata : gmap string jsval) (target : string) (apiKeys : list string) :
  (target, apiKeys) ∈ fieldsToCheck ->
  applyApiResponse response metadata !! target =
  match firstPresent (normalizeKeys response) apiKeys with
  | Some v => Some v
  | None => metadata !! target
  end.
Proof.
  intros Hin. unfold applyApiResponse.
  by apply applyFields_target; [apply fieldsToCheck_targets_distinct|].
Qed.

(** For each of the nineteen target fields the first alias that has a
    present value in the answer (not undefined, null or ['']) supplies the
    value; when no alias has one, the field keeps what it held. *)
Theorem applyApiResponse_first_alias_wins (response : list (string * jsval))
    (metadata : gmap string jsval) (target : string) (apiKeys : list string) :
  (target, apiKeys) ∈ fieldsToCheck ->
  applyApiResponse response metadata !! target =
  match firstPresent (normalizeKeys response) apiKeys with
  | Some v => Some v
  | None => metadata !! target
  end.
Proof. apply applyApiResponse_target. Qed.

Lemma applyApiResponse_first_alias_wins_witness :
  applyApiResponse [("name", JStr "B"); ("patient_name", JStr "A")] emptyMetadata
    !! "patientName" = Some (JStr "A").
Proof.
  rewrite (applyApiResponse_first_alias_wins _ _ "patientName"
             ["patientname"; "patient_name"; "name"]).
  - vm_compute. reflexivity.
  - by left.
Defined.

(** The handler writes the nineteen target fields only: [imageId] and any
    other property of the record are left as they are. *)
Theorem applyApiResponse_other_keys_untouched (response : list (string * jsval))
    (metadata : gmap string jsval) (key : string) :
  key ∉ fieldsToCheck.*1 ->
  applyApiResponse response metadata !! key = metadata !! key.
Proof. intros H. unfold applyApiResponse. by apply applyFields_untouched. Qed.

Lemma applyApiResponse_other_keys_untouched_witness :
  applyApiResponse [("imageId", JStr "7"); ("id", JStr "7")] emptyMetadata !! "imageId"
  = Some (JStr "").
Proof.
  rewrite applyApiResponse_other_keys_untouched; [vm_compute; reflexivity|].
  unfold fieldsToCheck. simpl. rewrite !not_elem_of_cons.
  repeat split; try discriminate. apply not_elem_of_nil.
Defined.

Lemma normalizeKeys_from (acc : gmap string jsval) (response : list (string * jsval)) :
  foldl (fun acc kv => <[toLowerCase kv.1 := kv.2]> acc) acc response
  = foldl (fun acc kv => <[kv.1 := kv.2]> acc) acc (map lowerKey response).
Proof.
  revert acc. induction response as [|kv rest IH]; intros acc; [done|].
  simpl. apply IH.
Qed.

(** The answer's keys are matched without regard to letter case: two answers
    that agree once their keys are lower-cased have the same effect on the
    record. *)
Theorem applyApiResponse_ignores_key_case (r1 r2 : list (string * jsval))
    (metadata : gmap string jsval) :
  map lowerKey r1 = map lowerKey r2 ->
  applyApiResponse r1 metadata = applyApiResponse r2 metadata.
Proof.
  intros H. unfold applyApiResponse, normalizeKeys.
  by rewrite !normalizeKeys_from, H.
Qed.

Lemma applyApiResponse_ignores_key_case_witness :
  applyApiResponse [("PatientName", JStr "A"); ("MODALITY", JStr "CT")] emptyMetadata
  = applyApiResponse [("patientname", JStr "A"); ("Modality", JStr "CT")] emptyMetadata.
Proof.
  apply applyApiResponse_ignores_key_case. reflexivity.
Defined.

Lemma normalizeKeys_value_from_response (response : list (string * jsval)) :
  forall (acc : gmap string jsval) (k : string) (v : jsval),
    foldl (fun acc kv => <[toLowerCase kv.1 := kv.2]> acc) acc response !! k = Some v ->
    acc !! k = Some v \/ exists k', (k', v) ∈ response.
Proof.
  induction response as [|[k0 v0] rest IH]; intros acc k v H; simpl in H; [by left|].
  apply IH in H as [H | (k' & Hk')].
  - rewrite lookup_insert in H. case_decide.
    + right. exists k0. injection H as <-. by left.
    + by left.
  - right. exists k'. by right.
Qed.

Lemma firstPresent_none (normalized : gmap string jsval) (apiKeys : list string) :
  (forall k v, normalized !! k = Some v -> isPresent v = false) ->
  firstPresent normalized apiKeys = None.
Proof.
  intros Hblank. induction apiKeys as [|k rest IH]; [done|].
  simpl. unfold getProp. destruct (normalized !! k) as [v|] eqn:Hk; simpl.
  - by rewrite (Hblank k v Hk).
  - exact IH.
Qed.

(** An answer all of whose values are undefined, null or [''] changes
    nothing: blank stored values never overwrite the record. *)
Theorem applyApiResponse_blank_answer (response : list (string * jsval))
    (metadata : gmap string jsval) :
  Forall (fun kv => isPresent kv.2 = false) response ->
  applyApiResponse response metadata = metadata.
Proof.
  intros Hblank. unfold applyApiResponse.
  assert (Hnone : forall keys, firstPresent (normalizeKeys response) keys = None).
  { intros keys. apply firstPresent_none. intros k v Hk.
    apply normalizeKeys_value_from_response in Hk as [Hk | (k' & Hk')].
    - by rewrite lookup_empty in Hk.
    - rewrite Forall_forall in Hblank. exact (Hblank _ Hk'). }
  generalize fieldsToCheck. intros fields. revert metadata.
  induction fields as [|field rest IH]; intros metadata; [done|].
  simpl. unfold applyField at 2. rewrite Hnone. apply IH.
Qed.

Lemma applyApiResponse_blank_answer_witness :
  applyApiResponse [("patientName", JStr ""); ("modality", JNull)] scenarioBaseline
  = scenarioBaseline.
Proof.
  apply applyApiResponse_blank_answer. repeat constructor.
Defined.

(** Which source wins depends on which callback runs last.  For a target
    field whose stored value [v] is present in the answer: if the answer is
    handled after the extraction, the field ends as [v]; if it is handled
    before, the field ends as the file's value whenever the merge guard
    accepts that value, and as [v] only otherwise. *)
Theorem arrival_order_decides_precedence (response : list (string * jsval))
    (placeholder extracted : gmap string jsval)
    (target : string) (apiKeys : list string) (v : jsval) :
  (target, apiKeys) ∈ fieldsToCheck ->
  firstPresent (normalizeKeys response) apiKeys = Some v ->
  getProp (applyApiResponse response (mergeMetadata placeholder extracted)) target = v
  /\ getProp (mergeMetadata (applyApiResponse response placeholder) extracted) target
     = (if nonEmptyFileValue (getProp extracted target)
        then getProp extracted target else v).
Proof.
  intros Hin Hv. split.
  - unfold getProp. by rewrite (applyApiResponse_target _ _ _ _ Hin), Hv.
  - rewrite mergeMetadata_getProp. unfold getProp at 3.
    by rewrite (applyApiResponse_target _ _ _ _ Hin), Hv.
Qed.

Lemma arrival_order_decides_precedence_witness :
  getProp (applyApiResponse sampleResponse (mergeMetadata emptyMetadata sampleExtracted))
          "studyInstanceUid" = JStr "1.2.3"
  /\ getProp (mergeMetadata (applyApiResponse sampleResponse emptyMetadata) sampleExtracted)
             "studyInstanceUid"
     = (if nonEmptyFileValue (getProp sampleExtracted "studyInstanceUid")
        then getProp sampleExtracted "studyInstanceUid" else JStr "1.2.3").
Proof.
  apply (arrival_order_decides_precedence sampleResponse emptyMetadata sampleExtracted
           "studyInstanceUid" ["studyinstanceuid"; "study_instance_uid"]
           (JStr "1.2.3")).
  - do 9 right. by left.
  - vm_compute. reflexivity.
Defined.

(** ** The component: runs and invariants *)

Lemma extractedMetadataOf_dom (image : cornerstoneImage)
    (dataset : option elementDictionary) :
  exists m, extractedMetadataOf image dataset = Returns m /\ fullyPopulated m.
Proof.
  unfold extractedMetadataOf, fullyPopulated. resolve_tags.
  eexists. split; [reflexivity|].
  unfold emptyMetadata. rewrite !dom_insert_L. reflexivity.
Qed.

Lemma mergeMetadata_populated (current extracted : gmap string jsval) :
  fullyPopulated current -> fullyPopulated extracted ->
  fullyPopulated (mergeMetadata current extracted).
Proof.
  unfold fullyPopulated. intros Hc He. apply set_eq. intros k.
  rewrite <- Hc, !elem_of_dom, mergeMetadata_lookup.
  destruct (extracted !! k) as [v|] eqn:Hk; [|done].
  destruct (nonEmptyFileValue v); [|done].
  split; [intros _ | by eexists].
  apply elem_of_dom. rewrite Hc, <- He. apply elem_of_dom. by eexists.
Qed.

Lemma targets_are_fields :
  Forall (fun t => t ∈ dom emptyMetadata) fieldsToCheck.*1.
Proof.
  unfold fieldsToCheck. simpl.
  repeat constructor; apply elem_of_dom; by eexists.
Qed.

Lemma applyFields_populated (normalized : gmap string jsval)
    (fields : list (string * list string)) :
  Forall (fun t => t ∈ dom emptyMetadata) fields.*1 ->
  forall metadata, fullyPopulated metadata ->
                   fullyPopulated (foldl (applyField normalized) metadata fields).
Proof.
  induction fields as [|field rest IH]; intros Hts metadata Hm; [done|].
  rewrite fmap_cons in Hts. apply Forall_cons in Hts as [Ht Hts].
  simpl. apply IH; [done|].
  unfold applyField. destruct (firstPresent normalized field.2); [|done].
  unfold fullyPopulated in *. rewrite dom_insert_L, Hm.
  apply set_eq. intros x. rewrite elem_of_union, elem_of_singleton.
  split; [intros [-> | Hx]; [exact Ht | exact Hx] | intros Hx; by right].
Qed.

Lemma saveMetadataToServer_populated (c : component) :
  recordsPopulated c -> recordsPopulated (saveMetadataToServer c).
Proof.
  intros Hc. pose proof Hc as [Hmd Hsaved]. unfold saveMetadataToServer.
  destruct (dicomMetadata c) as [m|] eqn:Hm; [|exact Hc].
  destruct (selectedImage c) as [sel|]; [|exact Hc].
  split; cbn [dicomMetadata savedPayloads].
  - intros m' [= <-]. by apply Hmd.
  - intros id' m'. rewrite elem_of_app, list_elem_of_singleton.
    intros [Hin | [= _ ->]]; [by eapply Hsaved | by apply Hmd].
Qed.

Lemma setMetadata_populated (c : component) (m : gmap string jsval) :
  recordsPopulated c -> fullyPopulated m -> recordsPopulated (setMetadata c (Some m)).
Proof.
  intros [_ Hsaved] Hm. split; cbn [setMetadata dicomMetadata savedPayloads].
  - by intros m' [= <-].
  - exact Hsaved.
Qed.

Lemma loadAndDisplayImage_populated (c : component) :
  recordsPopulated c -> recordsPopulated (loadAndDisplayImage c).
Proof.
  intros Hc. unfold loadAndDisplayImage.
  destruct (selectedImage c); [|exact Hc].
  destruct (element c && cornerstoneInitialized c)%bool; [|exact Hc].
  destruct Hc as [Hmd Hsaved]. split; [exact Hmd | exact Hsaved].
Qed.

Lemma step_keeps_records_populated (c c' : component) (e : event) :
  recordsPopulated c -> step c e = Some c' -> recordsPopulated c'.
Proof.
  intros Hc Hstep. pose proof Hc as [Hmd Hsaved].
  destruct e as [|selected| |id response| |id image|id]; cbn [step] in Hstep.
  - injection Hstep as <-. unfold ngAfterViewInit.
    assert (Hready : recordsPopulated (viewReady c))
      by (split; [exact Hmd | exact Hsaved]).
    cbn [viewReady selectedImage].
    destruct (selectedImage c); [by apply loadAndDisplayImage_populated | exact Hready].
  - injection Hstep as <-. unfold ngOnChanges.
    cbn [setMetadata setSelected element selectedImage].
    destruct selected as [id|]; [destruct (element c)|].
    + split; [|exact Hsaved]. intros m [= <-]. reflexivity.
    + split; [intros m [=] | exact Hsaved].
    + split; [intros m [=] | exact Hsaved].
  - injection Hstep as <-. unfold retryLoad.
    destruct (selectedImage c); [by apply loadAndDisplayImage_populated | exact Hc].
  - destruct (isPending id (pendingFetches c)); [|done].
    injection Hstep as <-. cbn [setPendingFetches setMetadata dicomMetadata].
    split; cbn [dicomMetadata savedPayloads]; [|exact Hsaved].
    intros m. unfold onFetchResponse.
    destruct response as [[|kv kvs]|]; try apply Hmd.
    destruct (dicomMetadata c) as [current|] eqn:Hcur; [|done].
    intros [= <-]. apply applyFields_populated; [apply targets_are_fields|].
    by apply Hmd.
  - destruct (pendingTimers c) as [|n]; [done|].
    injection Hstep as <-. apply loadAndDisplayImage_populated.
    split; [exact Hmd | exact Hsaved].
  - destruct (isPending id (pendingLoads c)); [|done].
    injection Hstep as <-.
    assert (Hc1 : recordsPopulated
                    (setPendingLoads c (removeFirst id (pendingLoads c))))
      by (split; [exact Hmd | exact Hsaved]).
    set (c1 := setPendingLoads c (removeFirst id (pendingLoads c))) in *.
    unfold extractDicomMetadata.
    destruct (elements image) as [dataset|]; cbn [andThen]; [|exact Hc1].
    destruct (extractedMetadataOf_dom image dataset) as (m & -> & Hm).
    destruct (dicomMetadata c1) as [current|] eqn:Hcur.
    + apply saveMetadataToServer_populated, setMetadata_populated; [done|].
      apply mergeMetadata_populated; [|done]. by apply Hc1.
    + by apply saveMetadataToServer_populated, setMetadata_populated.
  - destruct (isPending id (pendingLoads c)); [|done].
    injection Hstep as <-. split; [exact Hmd | exact Hsaved].
Qed.

Lemma run_keeps_records_populated (trace : list event) :
  forall c c', recordsPopulated c -> run c trace = Some c' -> recordsPopulated c'.
Proof.
  induction trace as [|e rest IH]; intros c c' Hc Hrun; simpl in Hrun.
  - by injection Hrun as <-.
  - destruct (step c e) as [c1|] eqn:Hstep; [|done].
    eapply IH; [|exact Hrun]. by eapply step_keeps_records_populated.
Qed.

(** In every run of the component, whatever the order of the callbacks, the
    record it holds and every payload it has posted to the server have
    exactly the twenty properties of [DicomMetadata]: no callback ever drops
    or adds a property. *)
Theorem records_always_fully_populated (trace : list event) (c : component) :
  run initialComponent trace = Some c ->
  (forall m, dicomMetadata c = Some m -> dom m = dom emptyMetadata)
  /\ (forall id m, (id, m) ∈ savedPayloads c -> dom m = dom emptyMetadata).
Proof.
  intros Hrun. apply (run_keeps_records_populated trace initialComponent c); [|done].
  split; [done|]. intros id m H. by apply elem_of_nil in H.
Qed.

Lemma records_always_fully_populated_witness :
  dom (applyApiResponse sampleResponse (mergeMetadata emptyMetadata sampleExtracted))
  = dom emptyMetadata.
Proof.
  apply (records_always_fully_populated
           [ViewInit; InputChanged (Some 1%Z); TimerFired; ImageLoaded 1%Z sampleImage;
            FetchResponded 1%Z (Some sampleResponse)]
           (setMetadata
              (setPendingFetches
                 (extractDicomMetadata
                    (setPendingLoads
                       (loadAndDisplayImage
                          (setPendingTimers
                             (ngOnChanges (ngAfterViewInit initialComponent) (Some 1%Z))
                             0))
                       [])
                    sampleImage)
                 [])
              (Some (applyApiResponse sampleResponse
                       (mergeMetadata emptyMetadata sampleExtracted))))).
  - reflexivity.
  - reflexivity.
Defined.

(** When the image input is set before the view is initialised, no baseline
    fetch and no timer are started; the load begins at view initialisation,
    and the candidate read from the file is adopted as it is, without the
    merge guard, and posted under the image's id. *)
Theorem selection_before_view_init_skips_baseline
    (id : Z) (image : cornerstoneImage) (dataset : option elementDictionary) :
  elements image = Returns dataset ->
  exists m c,
    extractedMetadataOf image dataset = Returns m
    /\ run initialComponent [InputChanged (Some id); ViewInit; ImageLoaded id image]
       = Some c
    /\ dicomMetadata c = Some m
    /\ savedPayloads c = [(id, m)]
    /\ pendingFetches c = []
    /\ pendingTimers c = 0.
Proof.
  intros Hel. destruct (extractedMetadataOf_dom image dataset) as (m & Hm & _).
  exists m. eexists. split; [exact Hm|].
  simpl. rewrite Z.eqb_refl. simpl.
  unfold extractDicomMetadata. rewrite Hel. simpl. rewrite Hm. simpl.
  repeat split; reflexivity.
Qed.

Lemma selection_before_view_init_skips_baseline_witness :
  exists m c,
    extractedMetadataOf sampleImage (Some sampleDictionary) = Returns m
    /\ run initialComponent [InputChanged (Some 1%Z); ViewInit; ImageLoaded 1%Z sampleImage]
       = Some c
    /\ dicomMetadata c = Some m
    /\ savedPayloads c = [(1%Z, m)]
    /\ pendingFetches c = []
    /\ pendingTimers c = 0.
Proof.
  apply (selection_before_view_init_skips_baseline 1%Z sampleImage
           (Some sampleDictionary)).
  reflexivity.
Defined.

(** ** The image list of the service *)

(** After a successful delete no image with the deleted id is left, every
    other image is still listed, and deleting the same id again changes
    nothing. *)
Theorem onDeleted_removes_exactly (images : list ImageService.DicomImage) (deleted : Z) :
  (forall img, In img (ImageService.onDeleted images deleted) <->
               In img images /\ ImageService.id img <> deleted)
  /\ ImageService.onDeleted (ImageService.onDeleted images deleted) deleted
     = ImageService.onDeleted images deleted.
Proof.
  unfold ImageService.onDeleted. split.
  - intros img. rewrite filter_In, negb_true_iff, Z.eqb_neq. reflexivity.
  - induction images as [|img rest IH]; [done|]. simpl.
    destruct (ImageService.id img =? deleted)%Z eqn:E; simpl; [exact IH|].
    rewrite E. simpl. by rewrite IH.
Qed.

Lemma onDeleted_absent (images : list ImageService.DicomImage) (deleted : Z) :
  Forall (fun img => ImageService.id img <> deleted) images ->
  ImageService.onDeleted images deleted = images.
Proof.
  unfold ImageService.onDeleted. induction 1 as [|img rest Himg _ IH]; [done|].
  simpl. apply Z.eqb_neq in Himg. rewrite Himg. simpl. by rewrite IH.
Qed.

(** Uploading an image whose id is new to the list and deleting it again
    gives back the list as it was. *)
Theorem upload_then_delete_restores (images : list ImageService.DicomImage)
    (fileName fileType : string) (metadata : option (gmap string jsval)) (newId : Z) :
  Forall (fun img => ImageService.id img <> newId) images ->
  ImageService.onDeleted
    (ImageService.onUploaded images fileName fileType metadata (Some newId)) newId
  = images.
Proof.
  intros Hfresh. unfold ImageService.onUploaded.
  destruct (newId =? 0)%Z; [by apply onDeleted_absent|].
  unfold ImageService.onDeleted. rewrite List.filter_app. simpl.
  rewrite Z.eqb_refl. simpl. rewrite app_nil_r.
  by apply onDeleted_absent.
Qed.

Lemma upload_then_delete_restores_witness :
  ImageService.onDeleted
    (ImageService.onUploaded [] "a.dcm" "application/dicom" None (Some 5%Z)) 5%Z = [].
Proof.
  apply (upload_then_delete_restores [] "a.dcm" "application/dicom" None 5%Z).
  constructor.
Defined.

Lemma findIndex_spec (imageId : Z) (images : list ImageService.DicomImage) :
  match ImageService.findIndex imageId images with
  | Some i =>
      exists img, images !! i = Some img /\ ImageService.id img = imageId
                  /\ Forall (fun other => ImageService.id other <> imageId) (take i images)
  | None => Forall (fun other => ImageService.id other <> imageId) images
  end.
Proof.
  induction images as [|img rest IH]; simpl; [constructor|].
  destruct (ImageService.id img =? imageId)%Z eqn:E.
  - apply Z.eqb_eq in E. exists img. repeat split; [done | constructor].
  - apply Z.eqb_neq in E.
    destruct (ImageService.findIndex imageId rest) as [i|]; simpl.
    + destruct IH as (found & Hi & Hid & Hbefore).
      exists found. repeat split; try done. by constructor.
    + by constructor.
Qed.

(** A metadata update keeps the list's length, ids, names and order; it
    rewrites the four summary fields of the first image with the payload's
    id from the posted record and leaves every image with another id as it
    was.  When no image has that id the list is unchanged. *)
Theorem onMetadataUpdated_touches_one_image
    (images : list ImageService.DicomImage) (imageId : Z)
    (metadata : gmap string jsval) :
  let updated := ImageService.onMetadataUpdated images imageId metadata in
  map ImageService.id updated = map ImageService.id images
  /\ map ImageService.name updated = map ImageService.name images
  /\ (forall i img, images !! i = Some img -> ImageService.id img <> imageId ->
                    updated !! i = Some img)
  /\ (forall i img, ImageService.findIndex imageId images = Some i ->
                    images !! i = Some img ->
                    updated !! i = Some (ImageService.withMetadata img metadata))
  /\ (Forall (fun img => ImageService.id img <> imageId) images -> updated = images).
Proof.
  simpl. unfold ImageService.onMetadataUpdated.
  pose proof (findIndex_spec imageId images) as Hspec.
  destruct (ImageService.findIndex imageId images) as [i|].
  - destruct Hspec as (found & Hi & Hid & _). rewrite Hi.
    assert (Hlt : (i < length images)%nat) by (by eapply lookup_lt_Some).
    split; [|split; [|split; [|split]]].
    + rewrite list_fmap_insert. simpl. apply list_insert_id.
      by rewrite list_lookup_fmap, Hi.
    + rewrite list_fmap_insert. simpl. apply list_insert_id.
      by rewrite list_lookup_fmap, Hi.
    + intros j img Hj Hne. rewrite list_lookup_insert_ne; [done|].
      intros ->. congruence.
    + intros j img [= <-] Hj. rewrite list_lookup_insert_eq by done. congruence.
    + intros Hall. rewrite Forall_forall in Hall.
      exfalso. apply (Hall found); [|done].
      apply list_elem_of_lookup. by exists i.
  - repeat split; try done.
Qed.

(** ** The upload path: [getTag] of [parseMetadataFromFile] *)

Lemma upload_getTagLoop_skip (dataset : ImageService.parsedDataset)
    (format : string) (rest : list string) :
  ImageService.yieldsNothing dataset format ->
  ImageService.getTagLoop dataset (format :: rest)
  = ImageService.getTagLoop dataset rest.
Proof.
  intros [H | [H [H' | H']]]; simpl; rewrite H; simpl; try done; by rewrite H'.
Qed.

Lemma upload_getTagLoop_throws (dataset : ImageService.parsedDataset)
    (pre : list string) (f : string) (post : list string) :
  Forall (ImageService.yieldsNothing dataset) pre ->
  ImageService.lookupThrows dataset f ->
  ImageService.getTagLoop dataset (pre ++ f :: post) = Throws.
Proof.
  intros Hpre Hthrow. induction Hpre as [|g pre Hg _ IH].
  - cbn [app ImageService.getTagLoop].
    destruct Hthrow as [H | [H H']]; rewrite H; cbn [andThen]; [done|].
    by rewrite H'.
  - change ((g :: pre) ++ f :: post)%list with (g :: (pre ++ f :: post))%list.
    rewrite upload_getTagLoop_skip by done. exact IH.
Qed.

(** On the upload path a lookup error is not confined to its spelling: when
    the spellings tried so far gave nothing and the next one throws, the
    field is [''], whatever the remaining spellings hold. *)
Theorem upload_getTag_error_aborts_lookup (dataset : ImageService.parsedDataset)
    (tag : string) (pre : list string) (f : string) (post : list string) :
  ImageService.formats tag = (pre ++ f :: post)%list ->
  Forall (ImageService.yieldsNothing dataset) pre ->
  ImageService.lookupThrows dataset f ->
  ImageService.getTag dataset tag = "".
Proof.
  intros Hfs Hpre Hthrow. unfold ImageService.getTag. rewrite Hfs.
  by rewrite (upload_getTagLoop_throws dataset pre f post Hpre Hthrow).
Qed.

Lemma upload_getTag_error_aborts_lookup_witness :
  ImageService.getTag ImageService.brokenDataset "00100010" = "".
Proof.
  apply (upload_getTag_error_aborts_lookup ImageService.brokenDataset "00100010"
           [] "00100010" ["x00100010"; "00100010"; "00100010"]).
  - reflexivity.
  - constructor.
  - left. reflexivity.
Defined.

(** The metadata object built at upload has exactly the twenty properties
    of the viewer's record, whatever the parsed data set, and its [imageId]
    is the file name. *)
Theorem upload_metadata_fully_populated (fileName : string)
    (dataset : ImageService.parsedDataset) :
  dom (ImageService.metadataOf fileName dataset) = dom emptyMetadata
  /\ getProp (ImageService.metadataOf fileName dataset) "imageId" = JStr fileName.
Proof.
  split.
  - unfold ImageService.metadataOf, emptyMetadata. rewrite !dom_insert_L. reflexivity.
  - unfold ImageService.metadataOf, getProp.
    do 16 (rewrite lookup_insert_ne by done). by rewrite lookup_insert_eq.
Qed.

(** ** The callers: upload bookkeeping and the DICOM file filter *)

Lemma deliver_not_last (st : UploadComponent.state) (e : ImageService.emitted) :
  (UploadComponent.successCount st + UploadComponent.failCount st + 1
   < UploadComponent.totalFiles st)%nat ->
  UploadComponent.deliver st e =
  {| UploadComponent.loading := UploadComponent.loading st;
     UploadComponent.error := UploadComponent.error st;
     UploadComponent.successCount :=
       UploadComponent.successCount st + (if UploadComponent.isNext e then 1 else 0);
     UploadComponent.failCount :=
       UploadComponent.failCount st + (if UploadComponent.isNext e then 0 else 1);
     UploadComponent.totalFiles := UploadComponent.totalFiles st;
     UploadComponent.navigations := UploadComponent.navigations st |}.
Proof.
  intros Hlt.
  destruct e; cbn [UploadComponent.deliver UploadComponent.isNext];
    unfold UploadComponent.onNext, UploadComponent.onError;
    cbn [UploadComponent.successCount UploadComponent.failCount
         UploadComponent.totalFiles];
    match goal with
    | |- context [Nat.eqb ?a ?b] =>
        destruct (Nat.eqb_spec a b) as [Heq|_]; [exfalso; lia|]
    end;
    f_equal; lia.
Qed.

Lemma deliver_last (st : UploadComponent.state) (e : ImageService.emitted) :
  (UploadComponent.successCount st + UploadComponent.failCount st + 1
   = UploadComponent.totalFiles st)%nat ->
  UploadComponent.deliver st e =
  UploadComponent.finishUpload
    {| UploadComponent.loading := UploadComponent.loading st;
       UploadComponent.error := UploadComponent.error st;
       UploadComponent.successCount :=
         UploadComponent.successCount st + (if UploadComponent.isNext e then 1 else 0);
       UploadComponent.failCount :=
         UploadComponent.failCount st + (if UploadComponent.isNext e then 0 else 1);
       UploadComponent.totalFiles := UploadComponent.totalFiles st;
       UploadComponent.navigations := UploadComponent.navigations st |}.
Proof.
  intros Hlast.
  destruct e; cbn [UploadComponent.deliver UploadComponent.isNext];
    unfold UploadComponent.onNext, UploadComponent.onError;
    cbn [UploadComponent.successCount UploadComponent.failCount
         UploadComponent.totalFiles];
    match goal with
    | |- context [Nat.eqb ?a ?b] =>
        destruct (Nat.eqb_spec a b) as [_|Hne]; [|exfalso; lia]
    end;
    do 2 f_equal; lia.
Qed.

Lemma deliver_before_last (reports : list ImageService.emitted) :
  forall st : UploadComponent.state,
    (UploadComponent.successCount st + UploadComponent.failCount st + length reports
     < UploadComponent.totalFiles st)%nat ->
    foldl UploadComponent.deliver st reports =
    {| UploadComponent.loading := UploadComponent.loading st;
       UploadComponent.error := UploadComponent.error st;
       UploadComponent.successCount :=
         UploadComponent.successCount st
         + length (List.filter UploadComponent.isNext reports);
       UploadComponent.failCount :=
         UploadComponent.failCount st
         + length (List.filter (fun e => negb (UploadComponent.isNext e)) reports);
       UploadComponent.totalFiles := UploadComponent.totalFiles st;
       UploadComponent.navigations := UploadComponent.navigations st |}.
Proof.
  induction reports as [|e rest IH]; intros st Hlt.
  - cbn. rewrite !Nat.add_0_r. by destruct st.
  - cbn [foldl]. cbn [length] in Hlt. rewrite deliver_not_last by lia.
    rewrite IH by (cbn; destruct (UploadComponent.isNext e); lia).
    cbn [UploadComponent.loading UploadComponent.error UploadComponent.successCount
         UploadComponent.failCount UploadComponent.totalFiles
         UploadComponent.navigations List.filter].
    destruct (UploadComponent.isNext e); cbn [negb length]; f_equal; lia.
Qed.

Lemma count_split (reports : list ImageService.emitted) :
  (length (List.filter UploadComponent.isNext reports)
   + length (List.filter (fun e => negb (UploadComponent.isNext e)) reports)
   = length reports)%nat.
Proof.
  induction reports as [|e rest IH]; [done|].
  cbn [List.filter]. destruct (UploadComponent.isNext e); cbn [negb length]; lia.
Qed.

Lemma existsb_count (reports : list ImageService.emitted) :
  existsb UploadComponent.isNext reports
  = (0 <? length (List.filter UploadComponent.isNext reports))%nat.
Proof.
  induction reports as [|e rest IH]; [done|].
  cbn [existsb List.filter]. destruct (UploadComponent.isNext e); [done | exact IH].
Qed.

Lemma uploadAll_outcome (st : UploadComponent.state)
    (reports : list ImageService.emitted) :
  reports <> [] ->
  let final := UploadComponent.uploadAll st reports in
  UploadComponent.loading final = false
  /\ UploadComponent.navigations final =
     (if existsb UploadComponent.isNext reports
      then S (UploadComponent.navigations st) else UploadComponent.navigations st)
  /\ UploadComponent.error final =
     (if existsb UploadComponent.isNext reports
      then None else Some "No DICOM images were uploaded successfully").
Proof.
  intros Hne. destruct (exists_last Hne) as (front & last & ->).
  cbn zeta. unfold UploadComponent.uploadAll.
  rewrite foldl_app, length_app. cbn [foldl length].
  rewrite deliver_before_last
    by (cbn [UploadComponent.uploadDicomFiles UploadComponent.successCount
             UploadComponent.failCount UploadComponent.totalFiles]; lia).
  pose proof (count_split front) as Hsum.
  rewrite existsb_app, (existsb_count front). cbn [existsb]. rewrite orb_false_r.
  set (s := length (List.filter UploadComponent.isNext front)) in *.
  set (f := length (List.filter (fun e => negb (UploadComponent.isNext e)) front)) in *.
  rewrite deliver_last
    by (cbn [UploadComponent.uploadDicomFiles UploadComponent.successCount
             UploadComponent.failCount UploadComponent.totalFiles]; lia).
  unfold UploadComponent.finishUpload, UploadComponent.uploadDicomFiles.
  cbn [UploadComponent.loading UploadComponent.error UploadComponent.successCount
       UploadComponent.failCount UploadComponent.totalFiles
       UploadComponent.navigations].
  destruct (UploadComponent.isNext last).
  - replace (0 <? 0 + s + 1)%nat with true by (symmetry; apply Nat.ltb_lt; lia).
    rewrite orb_true_r. done.
  - rewrite Nat.add_0_r, orb_false_r. cbn [Nat.add].
    destruct (0 <? s)%nat eqn:Hs; [done|].
    replace (0 <? f + 1)%nat with true by (symmetry; apply Nat.ltb_lt; lia).
    done.
Qed.

(** For a batch of at least one file, once every upload has reported back
    (in any order) the component has stopped loading, has navigated to the
    gallery exactly once if at least one upload delivered a value and not at
    all otherwise, and shows its error message only when every upload ended
    in an error; while reports are still outstanding it keeps loading and
    has not navigated. *)
Theorem uploadAll_finishes_once (st : UploadComponent.state)
    (reports : list ImageService.emitted) :
  reports <> [] ->
  (let final := UploadComponent.uploadAll st reports in
   UploadComponent.loading final = false
   /\ UploadComponent.navigations final =
      (if existsb UploadComponent.isNext reports
       then S (UploadComponent.navigations st) else UploadComponent.navigations st)
   /\ UploadComponent.error final =
      (if existsb UploadComponent.isNext reports
       then None else Some "No DICOM images were uploaded successfully"))
  /\ (forall arrived outstanding,
        reports = (arrived ++ outstanding)%list -> outstanding <> [] ->
        let partial :=
          foldl UploadComponent.deliver
                (UploadComponent.uploadDicomFiles st (length reports)) arrived in
        UploadComponent.loading partial = true
        /\ UploadComponent.navigations partial = UploadComponent.navigations st).
Proof.
  intros Hne. split; [by apply uploadAll_outcome|].
  intros arrived outstanding -> Hout. simpl.
  rewrite deliver_before_last; [done|].
  simpl. rewrite length_app. destruct outstanding; [done|]. simpl. lia.
Qed.

Lemma uploadAll_finishes_once_witness :
  (let final := UploadComponent.uploadAll
                  {| UploadComponent.loading := false; UploadComponent.error := None;
                     UploadComponent.successCount := 0; UploadComponent.failCount := 0;
                     UploadComponent.totalFiles := 0; UploadComponent.navigations := 0 |}
                  [ImageService.ErrorSignal; ImageService.NextResponse] in
   UploadComponent.loading final = false
   /\ UploadComponent.navigations final = 1%nat
   /\ UploadComponent.error final = None).
Proof.
  apply (uploadAll_finishes_once
           {| UploadComponent.loading := false; UploadComponent.error := None;
              UploadComponent.successCount := 0; UploadComponent.failCount := 0;
              UploadComponent.totalFiles := 0; UploadComponent.navigations := 0 |}
           [ImageService.ErrorSignal; ImageService.NextResponse]).
  discriminate.
Defined.

(** A failed post does not count as a failure.  When every file of a batch
    is read and parsed but every post fails, [uploadImage] hands each
    failure to the subscriber as a value, so the upload component shows no
    error and navigates to the gallery, while the image list of the service
    is unchanged. *)
Theorem failed_posts_count_as_success (st : UploadComponent.state)
    (images : list ImageService.DicomImage)
    (batch : list (file * option (gmap string jsval))) :
  batch <> [] ->
  let results :=
    map (fun fm => ImageService.uploadImage images (fileName fm.1) (fileType fm.1)
                     (ImageService.Parsed fm.2) ImageService.PostFailed) batch in
  Forall (fun r => r.1 = images) results
  /\ UploadComponent.error (UploadComponent.uploadAll st (map snd results)) = None
  /\ UploadComponent.navigations (UploadComponent.uploadAll st (map snd results))
     = S (UploadComponent.navigations st)
  /\ UploadComponent.loading (UploadComponent.uploadAll st (map snd results)) = false.
Proof.
  intros Hne. simpl. split.
  - apply Forall_forall. intros r Hr. apply list_elem_of_In, in_map_iff in Hr.
    by destruct Hr as (fm & <- & _).
  - assert (Hne' : map snd (map (fun fm : file * option (gmap string jsval) =>
                     ImageService.uploadImage images (fileName fm.1) (fileType fm.1)
                       (ImageService.Parsed fm.2) ImageService.PostFailed) batch) <> []).
    { by destruct batch. }
    destruct (uploadAll_outcome st _ Hne') as (Hl & Hn & He).
    assert (Hex : existsb UploadComponent.isNext
                    (map snd (map (fun fm : file * option (gmap string jsval) =>
                       ImageService.uploadImage images (fileName fm.1) (fileType fm.1)
                         (ImageService.Parsed fm.2) ImageService.PostFailed) batch)) = true).
    { by destruct batch. }
    rewrite Hex in Hn, He. done.
Qed.

Lemma failed_posts_count_as_success_witness :
  let st := {| UploadComponent.loading := false; UploadComponent.error := None;
               UploadComponent.successCount := 0; UploadComponent.failCount := 0;
               UploadComponent.totalFiles := 0; UploadComponent.navigations := 0 |} in
  let results :=
    map (fun fm : file * option (gmap string jsval) =>
           ImageService.uploadImage [] (fileName fm.1) (fileType fm.1)
             (ImageService.Parsed fm.2) ImageService.PostFailed)
        [({| fileName := "a.dcm"; fileType := "" |}, None)] in
  Forall (fun r => r.1 = []) results
  /\ UploadComponent.error (UploadComponent.uploadAll st (map snd results)) = None
  /\ UploadComponent.navigations (UploadComponent.uploadAll st (map snd results)) = 1%nat
  /\ UploadComponent.loading (UploadComponent.uploadAll st (map snd results)) = false.
Proof.
  apply (failed_posts_count_as_success
           {| UploadComponent.loading := false; UploadComponent.error := None;
              UploadComponent.successCount := 0; UploadComponent.failCount := 0;
              UploadComponent.totalFiles := 0; UploadComponent.navigations := 0 |}
           [] [({| fileName := "a.dcm"; fileType := "" |}, None)]).
  discriminate.
Defined.

Lemma onDeleted_removes_exactly_witness :
  ImageService.onDeleted
    (ImageService.onDeleted
       (ImageService.onUploaded [] "a.dcm" "application/dicom" None (Some 5%Z)) 5%Z) 5%Z
  = ImageService.onDeleted
      (ImageService.onUploaded [] "a.dcm" "application/dicom" None (Some 5%Z)) 5%Z.
Proof.
  exact (proj2 (onDeleted_removes_exactly
                  (ImageService.onUploaded [] "a.dcm" "application/dicom" None
                                           (Some 5%Z)) 5%Z)).
Defined.

Lemma onMetadataUpdated_touches_one_image_witness :
  map ImageService.id
      (ImageService.onMetadataUpdated
         (ImageService.onUploaded [] "a.dcm" "application/dicom" None (Some 5%Z))
         5%Z scenarioCandidate)
  = map ImageService.id
        (ImageService.onUploaded [] "a.dcm" "application/dicom" None (Some 5%Z)).
Proof.
  exact (proj1 (onMetadataUpdated_touches_one_image
                  (ImageService.onUploaded [] "a.dcm" "application/dicom" None
                                           (Some 5%Z)) 5%Z scenarioCandidate)).
Defined.

Lemma mapChars_append (f : ascii -> ascii) (a b : string) :
  mapChars f (a +:+ b) = mapChars f a +:+ mapChars f b.
Proof.
  induction a as [|c a IH]; [reflexivity|]. exact (f_equal (String (f c)) IH).
Qed.

Lemma string_length_append (a b : string) :
  String.length (a +:+ b) = (String.length a + String.length b)%nat.
Proof. induction a as [|c a IH]; [reflexivity|]. exact (f_equal S IH). Qed.

Lemma substring_whole (b : string) : String.substring 0 (String.length b) b = b.
Proof.
  induction b as [|c b IH]; [reflexivity|]. exact (f_equal (String c) IH).
Qed.

Lemma substring_suffix (a b : string) :
  String.substring (String.length a) (String.length b) (a +:+ b) = b.
Proof. induction a as [|c a IH]; [apply substring_whole | exact IH]. Qed.

Lemma endsWith_append (a b : string) : endsWith (a +:+ b) b = true.
Proof.
  unfold endsWith. rewrite string_length_append.
  replace (String.length b <=? String.length a + String.length b)%nat with true
    by (symmetry; apply Nat.leb_le; lia).
  replace (String.length a + String.length b - String.length b)%nat
    with (String.length a) by lia.
  rewrite substring_suffix. apply String.eqb_refl.
Qed.

(** The file filter of the gallery and of the folder upload accepts a file
    whose name ends in [.dcm] written in any mix of upper and lower case,
    whatever its MIME type, and any file whose MIME type is
    [application/dicom], whatever its name. *)
Theorem isDicomFile_extension_any_case (stem ext type : string) :
  toLowerCase ext = ".dcm" ->
  isDicomFile {| fileName := stem +:+ ext; fileType := type |} = true
  /\ isDicomFile {| fileName := stem; fileType := "application/dicom" |} = true.
Proof.
  intros Hext. unfold isDicomFile. cbn [fileName fileType]. split.
  - unfold toLowerCase in *. rewrite mapChars_append, Hext, endsWith_append. done.
  - change (String.eqb "application/dicom" "application/dicom") with true.
    apply orb_true_r.
Qed.

Lemma isDicomFile_extension_any_case_witness :
  isDicomFile {| fileName := "scan01" +:+ ".DcM"; fileType := "" |} = true
  /\ isDicomFile {| fileName := "scan01"; fileType := "application/dicom" |} = true.
Proof.
  apply (isDicomFile_extension_any_case "scan01" ".DcM" "").
  reflexivity.
Defined.
